(** * Gemini request/response adapter

    A shallow embedding of the two scripts of the repository,
    [generateResponse-gemini.py] (the command-line variant) and
    [generateResponse.py] (the plain variant), together with the
    properties their specification states about them.

    Python values that travel through JSON are embedded as [pyval];
    exceptions are embedded as the [Raise] branch of [result]; the
    observable effects of a run (lines printed, files opened, files
    written, HTTP requests sent) are recorded in a trace that is
    threaded, with the files and the number of clock readings, through
    a small state-and-exception monad.  What the interpreter's
    libraries and the network decide is gathered in [Platform]. *)

From Stdlib Require Import ZArith NArith Bool List Lia.
From Stdlib.Strings Require Import String Ascii Byte.
From Stdlib Require Import Floats DecimalString DecimalNat.
Import ListNotations.

Set Warnings "-register-all,-inexact-float".

Local Open Scope string_scope.
Local Open Scope list_scope.

(** ** Python exceptions and results *)

Inductive exn : Type :=
| TypeError (msg : string)
| KeyError (key : string)
| IndexError
| AttributeError (msg : string)
| ValueError (msg : string)
| BinasciiError (msg : string)
| FileNotFoundError (path : string)
| JSONDecodeError
| ConnectionError
| HTTPError (status : Z)
| SystemExit (code : Z).

Inductive result (A : Type) : Type :=
| Ok (a : A)
| Raise (e : exn).

Arguments Ok {A} a.
Arguments Raise {A} e.

Definition is_ok {A} (r : result A) : bool :=
  match r with Ok _ => true | Raise _ => false end.

(** ** JSON-shaped Python values

    A [dict] is kept as an association list in insertion order, the
    order Python dictionaries (and [json.dumps]) observe.  A [float] is
    an IEEE binary64 number, as in CPython. *)

Inductive pyval : Type :=
| PNone
| PBool (b : bool)
| PInt (z : Z)
| PFloat (f : float)
| PStr (s : string)
| PList (l : list pyval)
| PDict (d : list (string * pyval)).

Definition dict : Type := list (string * pyval).

Fixpoint dict_get {V : Type} (k : string) (d : list (string * V)) : option V :=
  match d with
  | [] => None
  | (k', v) :: rest => if String.eqb k k' then Some v else dict_get k rest
  end.

Definition dict_has {V : Type} (k : string) (d : list (string * V)) : bool :=
  match dict_get k d with Some _ => true | None => false end.

(** [d[k] = v]: replace the binding in place when the key exists,
    append it at the end otherwise. *)
Fixpoint dict_set {V : Type} (k : string) (v : V) (d : list (string * V))
  : list (string * V) :=
  match d with
  | [] => [(k, v)]
  | (k', v') :: rest =>
      if String.eqb k k' then (k, v) :: rest else (k', v') :: dict_set k v rest
  end.

(** ** The base64 codec

    [base64.b64encode] and [base64.b64decode] belong to the Python
    standard library.  The encoder follows RFC 4648 (three bytes to four
    letters, [=] padding); the decoder follows the lenient loop of
    [binascii.a2b_base64]: letters outside the alphabet are skipped, a
    completed pad sequence stops the decoding, and a dangling quad is an
    error. *)

Module Base64.

Definition alphabet : string :=
  "ABCDEFGHIJKLMNOPQRSTUVWXYZabcdefghijklmnopqrstuvwxyz0123456789+/".

Definition pad : ascii := "="%char.

Definition b2a (n : N) : ascii :=
  match String.get (N.to_nat n) alphabet with
  | Some c => c
  | None => pad
  end.

Definition a2b (c : ascii) : option N :=
  let n := N_of_ascii c in
  if (65 <=? n)%N && (n <=? 90)%N then Some (n - 65)%N
  else if (97 <=? n)%N && (n <=? 122)%N then Some (n - 71)%N
  else if (48 <=? n)%N && (n <=? 57)%N then Some (n + 4)%N
  else if (n =? 43)%N then Some 62%N
  else if (n =? 47)%N then Some 63%N
  else None.

(** Store into an [unsigned char]. *)
Definition byte_of_N (n : N) : byte :=
  match Byte.of_N (N.land n 255) with
  | Some b => b
  | None => x00
  end.

(** The four sextets of a three-byte group. *)
Definition sextet0 (a : byte) : N := N.shiftr (Byte.to_N a) 2.
Definition sextet1 (a b : byte) : N :=
  N.lor (N.shiftl (N.land (Byte.to_N a) 3) 4) (N.shiftr (Byte.to_N b) 4).
Definition sextet2 (b c : byte) : N :=
  N.lor (N.shiftl (N.land (Byte.to_N b) 15) 2) (N.shiftr (Byte.to_N c) 6).
Definition sextet3 (c : byte) : N := N.land (Byte.to_N c) 63.

Fixpoint encode (bs : list byte) : string :=
  match bs with
  | [] => EmptyString
  | [a] =>
      String (b2a (sextet0 a)) (String (b2a (sextet1 a x00))
        (String pad (String pad EmptyString)))
  | [a; b] =>
      String (b2a (sextet0 a)) (String (b2a (sextet1 a b))
        (String (b2a (sextet2 b x00)) (String pad EmptyString)))
  | a :: b :: c :: rest =>
      String (b2a (sextet0 a)) (String (b2a (sextet1 a b))
        (String (b2a (sextet2 b c)) (String (b2a (sextet3 c)) (encode rest))))
  end.

(** The decoding loop, with its state spelled out: the position in the
    current quad, the bits left over from the previous letter, the
    number of pad letters seen since the last data letter, and the
    bytes produced so far. *)
Fixpoint decode_loop (s : string) (quad_pos : nat) (leftchar : N) (pads : nat)
         (out : list byte) : result (list byte) :=
  match s with
  | EmptyString =>
      match quad_pos with
      | O => Ok out
      | S O => Raise (BinasciiError "Invalid base64-encoded string")
      | _ => Raise (BinasciiError "Incorrect padding")
      end
  | String ch rest =>
      if Ascii.eqb ch pad then
        if (2 <=? quad_pos)%nat then
          if (4 <=? quad_pos + S pads)%nat then Ok out
          else decode_loop rest quad_pos leftchar (S pads) out
        else decode_loop rest quad_pos leftchar pads out
      else
        match a2b ch with
        | None => decode_loop rest quad_pos leftchar pads out
        | Some v =>
            match quad_pos with
            | 0%nat => decode_loop rest 1 v 0 out
            | 1%nat =>
                decode_loop rest 2 (N.land v 15) 0
                  (out ++ [byte_of_N (N.lor (N.shiftl leftchar 2) (N.shiftr v 4))])
            | 2%nat =>
                decode_loop rest 3 (N.land v 3) 0
                  (out ++ [byte_of_N (N.lor (N.shiftl leftchar 4) (N.shiftr v 2))])
            | _ =>
                decode_loop rest 0 0 0
                  (out ++ [byte_of_N (N.lor (N.shiftl leftchar 6) v)])
            end
        end
  end.

Definition is_ascii (c : ascii) : bool := (N_of_ascii c <? 128)%N.

Fixpoint all_ascii (s : string) : bool :=
  match s with
  | EmptyString => true
  | String c rest => is_ascii c && all_ascii rest
  end.

(** [base64.b64decode] applied to a [str]. *)
Definition decode (s : string) : result (list byte) :=
  if all_ascii s then decode_loop s 0 0 0 []
  else Raise (ValueError "string argument should contain only ASCII characters").

(** The 256 bytes, for checks by enumeration. *)
Definition all_bytes : list byte :=
  flat_map (fun n => match Byte.of_N (N.of_nat n) with
                     | Some b => [b]
                     | None => []
                     end) (seq 0 256).

(** A sextet whose letter is not the pad, is ASCII, and maps back. *)
Definition good_letter (v : N) : bool :=
  negb (Ascii.eqb (b2a v) pad)
  && is_ascii (b2a v)
  && match a2b (b2a v) with
     | Some v' => N.eqb v' v
     | None => false
     end.

End Base64.

(** [base64.b64encode(b).decode('utf-8')] *)
Definition b64encode (bs : list byte) : string := Base64.encode bs.

(** [base64.b64decode(v)] on a JSON value. *)
Definition b64decode (v : pyval) : result (list byte) :=
  match v with
  | PStr s => Base64.decode s
  | PNone | PBool _ | PInt _ | PFloat _ | PList _ | PDict _ =>
      Raise (TypeError "argument should be a bytes-like object or ASCII string")
  end.

(** ** Python operations on JSON values *)

(** Truth value of an object, as tested by [if v:]. *)
Definition truthy (v : pyval) : bool :=
  match v with
  | PNone => false
  | PBool b => b
  | PInt z => negb (z =? 0)%Z
  | PFloat f => negb (PrimFloat.eqb f 0%float)
  | PStr s => negb (String.eqb s "")
  | PList l => match l with [] => false | _ :: _ => true end
  | PDict d => match d with [] => false | _ :: _ => true end
  end.

Definition is_substring (k s : string) : bool :=
  match String.index 0 k s with Some _ => true | None => false end.

Definition is_str (k : string) (v : pyval) : bool :=
  match v with PStr s => String.eqb s k | _ => false end.

(** [k in c] for a string [k]. *)
Definition py_contains (k : string) (c : pyval) : result bool :=
  match c with
  | PDict d => Ok (dict_has k d)
  | PList l => Ok (existsb (is_str k) l)
  | PStr s => Ok (is_substring k s)
  | PNone | PBool _ | PInt _ | PFloat _ =>
      Raise (TypeError "argument is not iterable")
  end.

(** [c[k]] for a string [k]. *)
Definition py_getitem (c : pyval) (k : string) : result pyval :=
  match c with
  | PDict d =>
      match dict_get k d with
      | Some v => Ok v
      | None => Raise (KeyError k)
      end
  | PList _ | PStr _ => Raise (TypeError "indices must be integers")
  | PNone | PBool _ | PInt _ | PFloat _ =>
      Raise (TypeError "object is not subscriptable")
  end.

(** [c[i]] for a list index [i]. *)
Definition py_item (c : pyval) (i : nat) : result pyval :=
  match c with
  | PList l =>
      match nth_error l i with
      | Some v => Ok v
      | None => Raise IndexError
      end
  | PStr _ | PDict _ | PNone | PBool _ | PInt _ | PFloat _ =>
      Raise (TypeError "object does not take a list index")
  end.

(** [c.get(k, default)] *)
Definition py_get (c : pyval) (k : string) (default : pyval) : result pyval :=
  match c with
  | PDict d =>
      match dict_get k d with
      | Some v => Ok v
      | None => Ok default
      end
  | PNone | PBool _ | PInt _ | PFloat _ | PStr _ | PList _ =>
      Raise (AttributeError "object has no attribute 'get'")
  end.

(** The items [for x in c] runs through. *)
Definition py_iter (c : pyval) : result (list pyval) :=
  match c with
  | PList l => Ok l
  | PDict d => Ok (map (fun kv => PStr (fst kv)) d)
  | PStr s => Ok (map (fun ch => PStr (String ch EmptyString)) (list_ascii_of_string s))
  | PNone | PBool _ | PInt _ | PFloat _ =>
      Raise (TypeError "object is not iterable")
  end.

(** Decimal rendering of integers inside f-strings. *)
Definition str_of_Z (z : Z) : string := NilZero.string_of_int (Z.to_int z).
Definition str_of_nat (n : nat) : string := NilZero.string_of_uint (Nat.to_uint n).

(** White space as [str.isspace] has it.  A [str] is kept as its UTF-8
    bytes, so the white space beyond ASCII is a sequence of two bytes
    (U+0085, U+00A0) or of three (U+1680, U+2000 to U+200A, U+2028,
    U+2029, U+202F, U+205F, U+3000). *)
Definition is_space (c : ascii) : bool :=
  let n := N_of_ascii c in
  ((9 <=? n)%N && (n <=? 13)%N) || ((28 <=? n)%N && (n <=? 32)%N).

Definition is_space2 (a b : ascii) : bool :=
  let y := N_of_ascii b in
  (N_of_ascii a =? 194)%N && ((y =? 133)%N || (y =? 160)%N).

Definition is_space3 (a b c : ascii) : bool :=
  let x := N_of_ascii a in
  let y := N_of_ascii b in
  let z := N_of_ascii c in
  ((x =? 225)%N && (y =? 154)%N && (z =? 128)%N)
  || ((x =? 226)%N && (y =? 128)%N
      && (((128 <=? z)%N && (z <=? 138)%N)
          || (z =? 168)%N || (z =? 169)%N || (z =? 175)%N))
  || ((x =? 226)%N && (y =? 129)%N && (z =? 159)%N)
  || ((x =? 227)%N && (y =? 128)%N && (z =? 128)%N).

Fixpoint lstrip (s : list ascii) : list ascii :=
  match s with
  | [] => []
  | a :: r1 =>
      if is_space a then lstrip r1
      else
        match r1 with
        | [] => s
        | b :: r2 =>
            if is_space2 a b then lstrip r2
            else
              match r2 with
              | [] => s
              | c :: r3 => if is_space3 a b c then lstrip r3 else s
              end
        end
  end.

(** The same from the end, on the reversed bytes. *)
Fixpoint rstrip_reversed (s : list ascii) : list ascii :=
  match s with
  | [] => []
  | c :: r1 =>
      if is_space c then rstrip_reversed r1
      else
        match r1 with
        | [] => s
        | b :: r2 =>
            if is_space2 b c then rstrip_reversed r2
            else
              match r2 with
              | [] => s
              | a :: r3 => if is_space3 a b c then rstrip_reversed r3 else s
              end
        end
  end.

(** [s.strip()] *)
Definition strip (s : string) : string :=
  string_of_list_ascii
    (rev (rstrip_reversed (rev (lstrip (list_ascii_of_string s))))).

(** ** The world a script runs in *)

(** A request handed to [requests.post]; the body is
    [json.dumps(req_payload)]. *)
Record Request : Type := {
  req_url : string;
  req_headers : list (string * string);
  req_payload : pyval
}.

(** What the scripts use of a [requests.Response]; [json] is the result
    of [response.json()]. *)
Record Response : Type := {
  status_code : Z;
  text : string;
  json : result pyval
}.

(** [Response.raise_for_status] of the requests library: client and
    server error statuses raise, every other status passes. *)
Definition raise_for_status (r : Response) : result unit :=
  if (400 <=? status_code r)%Z && (status_code r <? 600)%Z
  then Raise (HTTPError (status_code r))
  else Ok tt.

(** [Response.ok]: whether [raise_for_status] passes. *)
Definition ok (r : Response) : bool := is_ok (raise_for_status r).

Inductive event : Type :=
| EvPrint (line : string)
| EvPrintJson (v : pyval)
| EvOpenRead (path : string)
| EvWrite (path : string) (content : list byte)
| EvPost (r : Request).

Record World : Type := {
  fs : list (string * list byte);
  ticks : nat;
  trace : list event
}.

(** What the interpreter, its libraries and the network decide. *)
Class Platform : Type := {
  http_post : Request -> result Response;
  strftime_now : nat -> string;
  guess_type : string -> option string;
  guess_extension : string -> option string;
  parse_int : string -> result Z;
  decode_text : list byte -> result string
}.

(** ** State and exceptions *)

Definition M (A : Type) : Type := World -> result A * World.

Definition ret {A} (a : A) : M A := fun w => (Ok a, w).

Definition raise {A} (e : exn) : M A := fun w => (Raise e, w).

Definition lift {A} (r : result A) : M A := fun w => (r, w).

Definition bind {A B} (m : M A) (k : A -> M B) : M B :=
  fun w =>
    match m w with
    | (Ok a, w') => k a w'
    | (Raise e, w') => (Raise e, w')
    end.

Declare Scope py_scope.
Delimit Scope py_scope with py.
Notation "x <- m ;; k" := (bind m (fun x => k))
  (at level 61, m at next level, right associativity) : py_scope.
Notation "m ;; k" := (bind m (fun _ => k))
  (at level 61, right associativity) : py_scope.
Local Open Scope py_scope.

Definition log (e : event) (w : World) : World :=
  {| fs := fs w; ticks := ticks w; trace := trace w ++ [e] |}.

Definition emit (e : event) : M unit := fun w => (Ok tt, log e w).

Definition print (line : string) : M unit := emit (EvPrint line).

(** [open(path, 'rb').read()] *)
Definition read_bytes (path : string) : M (list byte) :=
  emit (EvOpenRead path) ;;
  fun w =>
    match dict_get path (fs w) with
    | Some content => (Ok content, w)
    | None => (Raise (FileNotFoundError path), w)
    end.

(** [open(path, 'wb').write(content)] *)
Definition write_bytes (path : string) (content : list byte) : M unit :=
  fun w =>
    (Ok tt, {| fs := dict_set path content (fs w);
               ticks := ticks w;
               trace := trace w ++ [EvWrite path content] |}).

(** The requests sent, the files written and the lines printed, read
    off a trace. *)
Definition posts (t : list event) : list Request :=
  flat_map (fun e => match e with EvPost r => [r] | _ => [] end) t.

Definition writes (t : list event) : list (string * list byte) :=
  flat_map (fun e => match e with EvWrite p c => [(p, c)] | _ => [] end) t.

Definition prints (t : list event) : list string :=
  flat_map (fun e => match e with EvPrint l => [l] | _ => [] end) t.

Definition opens (t : list event) : list string :=
  flat_map (fun e => match e with EvOpenRead p => [p] | _ => [] end) t.

Definition run {A} (m : M A) (w : World) : result A * World := m w.

Definition default {A} (d : A) (o : option A) : A :=
  match o with Some a => a | None => d end.

Definition safety_settings (threshold : string) : pyval :=
  PList
    [ PDict [("category", PStr "HARM_CATEGORY_HATE_SPEECH"); ("threshold", PStr threshold)];
      PDict [("category", PStr "HARM_CATEGORY_HARASSMENT"); ("threshold", PStr threshold)];
      PDict [("category", PStr "HARM_CATEGORY_SEXUALLY_EXPLICIT"); ("threshold", PStr threshold)];
      PDict [("category", PStr "HARM_CATEGORY_DANGEROUS_CONTENT"); ("threshold", PStr threshold)] ].

Definition generation_config (max_tokens : Z) (temperature top_p : float)
           (top_k candidate_count : Z) : pyval :=
  PDict [ ("maxOutputTokens", PInt max_tokens);
          ("temperature", PFloat temperature);
          ("topP", PFloat top_p);
          ("topK", PInt top_k);
          ("candidateCount", PInt candidate_count) ].

Definition json_headers : list (string * string) :=
  [("Content-Type", "application/json")].

Definition rbind {A B} (r : result A) (k : A -> result B) : result B :=
  match r with
  | Ok a => k a
  | Raise e => Raise e
  end.

(** [payload["contents"][0]["parts"]] *)
Definition payload_parts (payload : pyval) : result pyval :=
  rbind (py_getitem payload "contents") (fun contents =>
  rbind (py_item contents 0) (fun content =>
  py_getitem content "parts")).

(** [payload["contents"][0]["parts"][0]["text"]] *)
Definition payload_text (payload : pyval) : result pyval :=
  rbind (payload_parts payload) (fun parts =>
  rbind (py_item parts 0) (fun part =>
  py_getitem part "text")).

(** [part["inline_data"]["data"]] *)
Definition part_data (part : pyval) : result pyval :=
  rbind (py_getitem part "inline_data") (fun inline =>
  py_getitem inline "data").

Section Scripts.

Context {platform : Platform}.

(** [datetime.now().strftime("%Y%m%d_%H%M%S_%f")] *)
Definition now_stamp : M string :=
  fun w =>
    (Ok (strftime_now (ticks w)),
     {| fs := fs w; ticks := S (ticks w); trace := trace w |}).

(** [requests.post(url, headers=headers, data=json.dumps(payload))] *)
Definition post (r : Request) : M Response :=
  emit (EvPost r) ;; lift (http_post r).

(** [open(path, 'r').read()] *)
Definition read_text (path : string) : M string :=
  content <- read_bytes path ;;
  lift (decode_text content).

(** [for i, x in enumerate(items): body(i, x)], counting from [i]. *)
Fixpoint for_enumerate (body : nat -> pyval -> M unit) (i : nat)
         (items : list pyval) : M unit :=
  match items with
  | [] => ret tt
  | x :: rest => body i x ;; for_enumerate body (S i) rest
  end.

End Scripts.

(** ** [generateResponse-gemini.py] *)

Module Cli.

(** The arguments of one call.  An argument that has a default in the
    signature is [None] when the caller leaves it out; the two optional
    objects, whose default is Python's [None], are values ([PNone] when
    left out).  [gemini_max_tokens] has no default in this variant. *)
Record Args : Type := {
  api_key : string;
  gemini_user_prompt : string;
  gemini_max_tokens : option Z;
  gemini_system_instruction : pyval;
  gemini_inline_data : pyval;
  gemini_temperature : option float;
  gemini_top_p : option float;
  gemini_top_k : option Z;
  gemini_candidate_count : option Z;
  gemini_safety_threshold : option string;
  gemini_api_version : option string;
  model : option string
}.

(** Line 43: the endpoint. *)
Definition url_of (a : Args) : string :=
  "https://generativelanguage.googleapis.com/"
  ++ default "v1beta" (gemini_api_version a)
  ++ "/models/" ++ default "gemini-2.5-pro" (model a)
  ++ ":generateContent?key=" ++ api_key a.

(** Lines 46 to 48: the parts array. *)
Definition parts_of (a : Args) : list pyval :=
  let parts := [PDict [("text", PStr (gemini_user_prompt a))]] in
  if truthy (gemini_inline_data a)
  then parts ++ [PDict [("inline_data", gemini_inline_data a)]]
  else parts.

(** Lines 50 to 72: the payload, with the system instruction added
    when the argument is true in a condition. *)
Definition payload_of (a : Args) (max_tokens : Z) : dict :=
  let payload :=
    [ ("contents", PList [PDict [("parts", PList (parts_of a))]]);
      ("generationConfig",
       generation_config max_tokens
         (default 1.0%float (gemini_temperature a))
         (default 0.95%float (gemini_top_p a))
         (default 40%Z (gemini_top_k a))
         (default 1%Z (gemini_candidate_count a)));
      ("safetySettings",
       safety_settings (default "BLOCK_ONLY_HIGH" (gemini_safety_threshold a))) ] in
  if truthy (gemini_system_instruction a)
  then dict_set "systemInstruction" (gemini_system_instruction a) payload
  else payload.

Section WithPlatform.

Context {platform : Platform}.

(** Lines 9 to 84.  Binding the arguments fails when the required
    [gemini_max_tokens] is missing; otherwise the request is posted once
    and the answer examined. *)
Definition call_gemini_api (a : Args) : M pyval :=
  match gemini_max_tokens a with
  | None =>
      raise (TypeError
        "call_gemini_api() missing 1 required positional argument: 'gemini_max_tokens'")
  | Some max_tokens =>
      response <- post {| req_url := url_of a;
                          req_headers := json_headers;
                          req_payload := PDict (payload_of a max_tokens) |} ;;
      (if negb (ok response)
       then print ("Error " ++ str_of_Z (status_code response) ++ ": " ++ text response) ;;
            lift (raise_for_status response)
       else ret tt) ;;
      lift (json response)
  end.

(** [mimetypes.guess_extension(v)]: the argument must be a string. *)
Definition py_guess_extension (v : pyval) : result (option string) :=
  match v with
  | PStr s => Ok (guess_extension s)
  | PNone | PBool _ | PInt _ | PFloat _ | PList _ | PDict _ =>
      Raise (AttributeError "object has no attribute 'lower'")
  end.

(** [x or ".bin"] *)
Definition or_bin (x : option string) : string :=
  match x with
  | Some s => if String.eqb s "" then ".bin" else s
  | None => ".bin"
  end.

Definition output_filename (timestamp : string) (idx part_idx : nat)
           (extension : string) : string :=
  "output_" ++ timestamp ++ "_c" ++ str_of_nat idx ++ "_p" ++ str_of_nat part_idx
  ++ extension.

(** Lines 140 to 151, the body of the inner loop: one part of one
    candidate. *)
Definition extract_part (idx part_idx : nat) (part : pyval) : M unit :=
  has_inline <- lift (py_contains "inline_data" part) ;;
  if has_inline : bool then
    timestamp <- now_stamp ;;
    inline <- lift (py_getitem part "inline_data") ;;
    mime_type <- lift (py_get inline "mime_type" (PStr "application/octet-stream")) ;;
    guessed <- lift (py_guess_extension mime_type) ;;
    let extension := or_bin guessed in
    let filename := output_filename timestamp idx part_idx extension in
    inline' <- lift (py_getitem part "inline_data") ;;
    data <- lift (py_getitem inline' "data") ;;
    binary_data <- lift (b64decode data) ;;
    write_bytes filename binary_data ;;
    print ("Binary output written to: " ++ filename)
  else ret tt.

(** Lines 138 and 139, the body of the outer loop: one candidate. *)
Definition extract_candidate (idx : nat) (candidate : pyval) : M unit :=
  has_content <- lift (py_contains "content" candidate) ;;
  has_parts <- (if has_content : bool
                then content <- lift (py_getitem candidate "content") ;;
                     lift (py_contains "parts" content)
                else ret false) ;;
  if has_parts : bool then
    content <- lift (py_getitem candidate "content") ;;
    parts <- lift (py_getitem content "parts") ;;
    items <- lift (py_iter parts) ;;
    for_enumerate (extract_part idx) 0 items
  else ret tt.

(** Lines 136 and 137: the scan of the response for binary outputs. *)
Definition extract_artifacts (result : pyval) : M unit :=
  has_candidates <- lift (py_contains "candidates" result) ;;
  if has_candidates : bool then
    candidates <- lift (py_getitem result "candidates") ;;
    items <- lift (py_iter candidates) ;;
    for_enumerate extract_candidate 0 items
  else ret tt.

Definition usage : string :=
  "Usage: python generateResponse.py <max_tokens> <system_instruction_file> <user_prompt_file> [binary_file]".

(** [sys.argv[i]] *)
Definition argv_at (argv : list string) (i : nat) : string := nth i argv "".

(** [mime_type, _ = guess_type(f); if not mime_type: mime_type = ...] *)
Definition mime_type_of (binary_file : string) : string :=
  match guess_type binary_file with
  | Some m => if String.eqb m "" then "application/octet-stream" else m
  | None => "application/octet-stream"
  end.

Definition read_inline_data (argv : list string)
  : M pyval :=
  if (5 <=? List.length argv)%nat then
    let binary_file := argv_at argv 4 in
    let mime_type := mime_type_of binary_file in
    binary_content <- read_bytes binary_file ;;
    let encoded_data := b64encode binary_content in
    ret (PDict [("mime_type", PStr mime_type); ("data", PStr encoded_data)])
  else ret PNone.

(** Lines 87 to 153: the script body. *)
Definition main (argv : list string) : M unit :=
  if (List.length argv <? 4)%nat then
    print usage ;;
    raise (SystemExit 1)
  else
    max_tokens <- lift (parse_int (argv_at argv 1)) ;;
    system_instruction_text <- read_text (argv_at argv 2) ;;
    user_prompt_text <- read_text (argv_at argv 3) ;;
    inline_data <- read_inline_data argv ;;
    key_text <- read_text "api.key" ;;
    let API_KEY := strip key_text in
    result <- call_gemini_api
                {| api_key := API_KEY;
                   gemini_user_prompt := user_prompt_text;
                   gemini_max_tokens := Some max_tokens;
                   gemini_system_instruction :=
                     PDict [("parts", PList [PDict [("text", PStr system_instruction_text)]])];
                   gemini_inline_data := inline_data;
                   gemini_temperature := None;
                   gemini_top_p := None;
                   gemini_top_k := None;
                   gemini_candidate_count := None;
                   gemini_safety_threshold := None;
                   gemini_api_version := None;
                   model := None |} ;;
    extract_artifacts result ;;
    emit (EvPrintJson result).

End WithPlatform.

End Cli.

(** ** [generateResponse.py] *)

Module Plain.

(** The arguments of one call; every argument after the prompt has a
    default in this variant. *)
Record Args : Type := {
  api_key : string;
  gemini_user_prompt : string;
  gemini_system_instruction : pyval;
  gemini_max_tokens : option Z;
  gemini_temperature : option float;
  gemini_top_p : option float;
  gemini_top_k : option Z;
  gemini_candidate_count : option Z;
  gemini_safety_threshold : option string;
  model : option string
}.

(** Line 35: the endpoint. *)
Definition url_of (a : Args) : string :=
  "https://generativelanguage.googleapis.com/v1beta/models/"
  ++ default "gemini-3-pro-preview" (model a)
  ++ ":generateContent?key=" ++ api_key a.

(** Lines 37 to 61: the payload. *)
Definition payload_of (a : Args) : dict :=
  let payload :=
    [ ("contents",
       PList [PDict [("parts", PList [PDict [("text", PStr (gemini_user_prompt a))]])]]);
      ("generationConfig",
       generation_config
         (default 8192%Z (gemini_max_tokens a))
         (default 1.0%float (gemini_temperature a))
         (default 0.95%float (gemini_top_p a))
         (default 40%Z (gemini_top_k a))
         (default 1%Z (gemini_candidate_count a)));
      ("safetySettings",
       safety_settings (default "BLOCK_ONLY_HIGH" (gemini_safety_threshold a))) ] in
  if truthy (gemini_system_instruction a)
  then dict_set "systemInstruction" (gemini_system_instruction a) payload
  else payload.

Section WithPlatform.

Context {platform : Platform}.

(** Lines 5 to 70. *)
Definition call_gemini_api (a : Args) : M pyval :=
  response <- post {| req_url := url_of a;
                      req_headers := json_headers;
                      req_payload := PDict (payload_of a) |} ;;
  lift (raise_for_status response) ;;
  lift (json response).

(** Lines 73 to 85: the example run.  The key the script spells out is
    the parameter [API_KEY]; it is passed on as it is written. *)
Definition main (API_KEY : string) : M unit :=
  result <- call_gemini_api
              {| api_key := API_KEY;
                 gemini_user_prompt := "Hello, how are you?";
                 gemini_system_instruction :=
                   PDict [("parts",
                           PList [PDict [("text", PStr "You are a helpful assistant.")]])];
                 gemini_max_tokens := Some 1024%Z;
                 gemini_temperature := Some 0.7%float;
                 gemini_top_p := None;
                 gemini_top_k := None;
                 gemini_candidate_count := None;
                 gemini_safety_threshold := None;
                 model := None |} ;;
  emit (EvPrintJson result).

End WithPlatform.

End Plain.

(** ** Sample inputs and names for the statements

    A mocked platform: one fixed HTTP answer, a clock that shows its own
    reading, a two-entry MIME table, decimal [int()], and byte-for-byte
    text files. *)

Definition has_suffix (suffix s : string) : bool :=
  let n := String.length s in
  let k := String.length suffix in
  (k <=? n)%nat && String.eqb (String.substring (n - k) k s) suffix.

Definition mock_platform (answer : result Response) : Platform :=
  {| http_post := fun _ => answer;
     strftime_now := fun n => ("20250101_120000_" ++ str_of_nat n)%string;
     guess_type := fun path =>
       if has_suffix ".png" path then Some "image/png" else None;
     guess_extension := fun mime =>
       if String.eqb mime "image/png" then Some ".png" else None;
     parse_int := fun s =>
       match NilZero.int_of_string s with
       | Some i => Ok (Z.of_int i)
       | None => Raise (ValueError "invalid literal for int()")
       end;
     decode_text := fun content => Ok (string_of_list_byte content) |}.

Definition empty_world : World := {| fs := []; ticks := 0; trace := [] |}.

Definition response_of (status : Z) (body : string) (parsed : result pyval) : Response :=
  {| status_code := status; text := body; json := parsed |}.

(** Records with one argument replaced. *)
Definition cli_with_system_instruction (v : pyval) (a : Cli.Args) : Cli.Args :=
  {| Cli.api_key := Cli.api_key a;
     Cli.gemini_user_prompt := Cli.gemini_user_prompt a;
     Cli.gemini_max_tokens := Cli.gemini_max_tokens a;
     Cli.gemini_system_instruction := v;
     Cli.gemini_inline_data := Cli.gemini_inline_data a;
     Cli.gemini_temperature := Cli.gemini_temperature a;
     Cli.gemini_top_p := Cli.gemini_top_p a;
     Cli.gemini_top_k := Cli.gemini_top_k a;
     Cli.gemini_candidate_count := Cli.gemini_candidate_count a;
     Cli.gemini_safety_threshold := Cli.gemini_safety_threshold a;
     Cli.gemini_api_version := Cli.gemini_api_version a;
     Cli.model := Cli.model a |}.

Definition plain_with_system_instruction (v : pyval) (a : Plain.Args) : Plain.Args :=
  {| Plain.api_key := Plain.api_key a;
     Plain.gemini_user_prompt := Plain.gemini_user_prompt a;
     Plain.gemini_system_instruction := v;
     Plain.gemini_max_tokens := Plain.gemini_max_tokens a;
     Plain.gemini_temperature := Plain.gemini_temperature a;
     Plain.gemini_top_p := Plain.gemini_top_p a;
     Plain.gemini_top_k := Plain.gemini_top_k a;
     Plain.gemini_candidate_count := Plain.gemini_candidate_count a;
     Plain.gemini_safety_threshold := Plain.gemini_safety_threshold a;
     Plain.model := Plain.model a |}.

(** A call that passes only the two required strings. *)
Definition cli_minimal (key prompt : string) : Cli.Args :=
  {| Cli.api_key := key;
     Cli.gemini_user_prompt := prompt;
     Cli.gemini_max_tokens := None;
     Cli.gemini_system_instruction := PNone;
     Cli.gemini_inline_data := PNone;
     Cli.gemini_temperature := None;
     Cli.gemini_top_p := None;
     Cli.gemini_top_k := None;
     Cli.gemini_candidate_count := None;
     Cli.gemini_safety_threshold := None;
     Cli.gemini_api_version := None;
     Cli.model := None |}.

Definition plain_minimal (key prompt : string) : Plain.Args :=
  {| Plain.api_key := key;
     Plain.gemini_user_prompt := prompt;
     Plain.gemini_system_instruction := PNone;
     Plain.gemini_max_tokens := None;
     Plain.gemini_temperature := None;
     Plain.gemini_top_p := None;
     Plain.gemini_top_k := None;
     Plain.gemini_candidate_count := None;
     Plain.gemini_safety_threshold := None;
     Plain.model := None |}.

(** A call with an attachment, as the command line builds it. *)
Definition sample_inline_data : dict :=
  [("mime_type", PStr "image/png"); ("data", PStr "TWFu")].

Definition sample_cli_args : Cli.Args :=
  {| Cli.api_key := "k";
     Cli.gemini_user_prompt := "Describe the image";
     Cli.gemini_max_tokens := Some 256%Z;
     Cli.gemini_system_instruction :=
       PDict [("parts", PList [PDict [("text", PStr "Be brief")]])];
     Cli.gemini_inline_data := PDict sample_inline_data;
     Cli.gemini_temperature := None;
     Cli.gemini_top_p := None;
     Cli.gemini_top_k := None;
     Cli.gemini_candidate_count := None;
     Cli.gemini_safety_threshold := None;
     Cli.gemini_api_version := None;
     Cli.model := None |}.

(** The request each variant hands to the transport. *)
Definition cli_request (a : Cli.Args) (max_tokens : Z) : Request :=
  {| req_url := Cli.url_of a;
     req_headers := json_headers;
     req_payload := PDict (Cli.payload_of a max_tokens) |}.

Definition plain_request (a : Plain.Args) : Request :=
  {| req_url := Plain.url_of a;
     req_headers := json_headers;
     req_payload := PDict (Plain.payload_of a) |}.

(** The four hazard categories, in the order of the payload. *)
Definition harm_categories : list string :=
  [ "HARM_CATEGORY_HATE_SPEECH"; "HARM_CATEGORY_HARASSMENT";
    "HARM_CATEGORY_SEXUALLY_EXPLICIT"; "HARM_CATEGORY_DANGEROUS_CONTENT" ].

(** What [main] passes to [call_gemini_api]. *)
Definition main_args (max_tokens : Z) (system_instruction_text user_prompt_text : string)
           (inline_data : pyval) (key : string) : Cli.Args :=
  {| Cli.api_key := key;
     Cli.gemini_user_prompt := user_prompt_text;
     Cli.gemini_max_tokens := Some max_tokens;
     Cli.gemini_system_instruction :=
       PDict [("parts", PList [PDict [("text", PStr system_instruction_text)]])];
     Cli.gemini_inline_data := inline_data;
     Cli.gemini_temperature := None;
     Cli.gemini_top_p := None;
     Cli.gemini_top_k := None;
     Cli.gemini_candidate_count := None;
     Cli.gemini_safety_threshold := None;
     Cli.gemini_api_version := None;
     Cli.model := None |}.

(** The inline data [main] builds from the bytes of the attachment. *)
Definition attachment {P : Platform} (binary_file : string) (content : list byte) : pyval :=
  PDict [("mime_type", PStr (Cli.mime_type_of binary_file));
         ("data", PStr (b64encode content))].

(** The world once [main] has read its three text files and the
    attachment. *)
Definition after_reads (argv : list string) (w : World) : World :=
  log (EvOpenRead "api.key")
    (log (EvOpenRead (Cli.argv_at argv 4))
       (log (EvOpenRead (Cli.argv_at argv 3))
          (log (EvOpenRead (Cli.argv_at argv 2)) w))).

(** The same without an attachment. *)
Definition after_text_reads (argv : list string) (w : World) : World :=
  log (EvOpenRead "api.key")
    (log (EvOpenRead (Cli.argv_at argv 3))
       (log (EvOpenRead (Cli.argv_at argv 2)) w)).

(** The inline data and the world at the call, with or without a
    fourth argument. *)
Definition main_inline_data {P : Platform} (argv : list string) (content : list byte)
  : pyval :=
  if (5 <=? List.length argv)%nat
  then attachment (Cli.argv_at argv 4) content
  else PNone.

Definition main_after_reads (argv : list string) (w : World) : World :=
  if (5 <=? List.length argv)%nat
  then after_reads argv w
  else after_text_reads argv w.

(** What [main] does with the answer of the call. *)
Definition main_tail {P : Platform} (a : Cli.Args) : M unit :=
  result <- Cli.call_gemini_api a ;;
  Cli.extract_artifacts result ;;
  emit (EvPrintJson result).

(** A computation that sends no request. *)
Definition no_post {A} (m : M A) : Prop :=
  forall w, posts (trace (snd (m w))) = posts (trace w).

(** [sys.argv[1:]] *)
Definition positional (argv : list string) : list string := tl argv.

(** A world for the mocked runs: the two prompts, the key and a
    three-byte attachment. *)
Definition sample_files : list (string * list byte) :=
  [ ("system.txt", list_byte_of_string "Be brief");
    ("prompt.txt", list_byte_of_string "Describe the image");
    ("api.key", list_byte_of_string " secret ");
    ("image.png", ["M"%byte; "a"%byte; "n"%byte]) ].

Definition sample_world : World := {| fs := sample_files; ticks := 0; trace := [] |}.

Definition sample_argv : list string :=
  ["generateResponse.py"; "256"; "system.txt"; "prompt.txt"; "image.png"].

Definition rate_limited : Response :=
  response_of 429 "rate limited" (Ok (PDict [("error", PStr "rate limited")])).

Definition multiple_choices : Response :=
  response_of 300 "{}" (Ok (PDict [])).

(** A response whose only part has inline data with a MIME type and no
    [data]. *)
Definition response_without_data : pyval :=
  PDict [("candidates",
          PList [PDict [("content",
                         PDict [("parts",
                                 PList [PDict [("inline_data",
                                                PDict [("mime_type", PStr "image/png")])]])])]])].


Definition png_candidate_of (data : string) : pyval :=
  PDict [("content",
          PDict [("parts",
                  PList [PDict [("inline_data",
                                 PDict [("mime_type", PStr "image/png");
                                        ("data", PStr data)])]])])].

(** The world after one more file has been written and announced. *)
Definition after_write (path : string) (content : list byte) (w : World) : World :=
  {| fs := dict_set path content (fs w);
     ticks := S (ticks w);
     trace := trace w ++ [EvWrite path content;
                          EvPrint ("Binary output written to: " ++ path)] |}.


Definition two_png_response (data0 data1 : string) : dict :=
  [("candidates", PList [png_candidate_of data0; png_candidate_of data1])].

(** ** Names for the further properties *)

(** The call of the plain variant that carries the same values as a
    call of the command-line variant. *)
Definition plain_of_cli (a : Cli.Args) : Plain.Args :=
  {| Plain.api_key := Cli.api_key a;
     Plain.gemini_user_prompt := Cli.gemini_user_prompt a;
     Plain.gemini_system_instruction := Cli.gemini_system_instruction a;
     Plain.gemini_max_tokens := Cli.gemini_max_tokens a;
     Plain.gemini_temperature := Cli.gemini_temperature a;
     Plain.gemini_top_p := Cli.gemini_top_p a;
     Plain.gemini_top_k := Cli.gemini_top_k a;
     Plain.gemini_candidate_count := Cli.gemini_candidate_count a;
     Plain.gemini_safety_threshold := Cli.gemini_safety_threshold a;
     Plain.model := Some (default "gemini-2.5-pro" (Cli.model a)) |}.

(** The arguments of the example run of the plain variant. *)
Definition plain_example_args (API_KEY : string) : Plain.Args :=
  {| Plain.api_key := API_KEY;
     Plain.gemini_user_prompt := "Hello, how are you?";
     Plain.gemini_system_instruction :=
       PDict [("parts", PList [PDict [("text", PStr "You are a helpful assistant.")]])];
     Plain.gemini_max_tokens := Some 1024%Z;
     Plain.gemini_temperature := Some 0.7%float;
     Plain.gemini_top_p := None;
     Plain.gemini_top_k := None;
     Plain.gemini_candidate_count := None;
     Plain.gemini_safety_threshold := None;
     Plain.model := None |}.

(** The world after one reading of the clock. *)
Definition tick (w : World) : World :=
  {| fs := fs w; ticks := S (ticks w); trace := trace w |}.

(** One file written by the scan: the clock reading it was named
    after, the index of its candidate and of its part, what
    [guess_extension] gave, and the bytes. *)
Record written : Type := {
  wr_tick : nat;
  wr_idx : nat;
  wr_part : nat;
  wr_ext : option string;
  wr_content : list byte
}.

Definition wr_pos (r : written) : nat * nat := (wr_idx r, wr_part r).

Definition wr_name {P : Platform} (r : written) : string :=
  Cli.output_filename (strftime_now (wr_tick r)) (wr_idx r) (wr_part r)
    (Cli.or_bin (wr_ext r)).

Definition wr_events {P : Platform} (r : written) : list event :=
  [EvWrite (wr_name r) (wr_content r);
   EvPrint ("Binary output written to: " ++ wr_name r)].

Definition wr_fs {P : Platform} (recs : list written) (files : list (string * list byte))
  : list (string * list byte) :=
  fold_left (fun d r => dict_set (wr_name r) (wr_content r) d) recs files.

(** [w'] is [w] after these files were written and announced, one after
    the other, and the clock was read some number of times. *)
Definition wrote {P : Platform} (recs : list written) (w w' : World) : Prop :=
  fs w' = wr_fs recs (fs w)
  /\ trace w' = trace w ++ flat_map wr_events recs
  /\ (ticks w <= ticks w')%nat.

Definition is_digit (c : ascii) : bool :=
  let n := N_of_ascii c in (48 <=? n)%N && (n <=? 57)%N.

Fixpoint all_digits (s : string) : bool :=
  match s with
  | EmptyString => true
  | String c rest => is_digit c && all_digits rest
  end.

(** An extension as [mimetypes] gives them: a dot, then the rest. *)
Definition dot_led (e : string) : Prop := exists rest, e = String "."%char rest.

(** What the uniqueness of the output names rests on: timestamps of one
    width, and extensions that are empty or start with a dot. *)
Definition fixed_width_clock (P : Platform) : Prop :=
  forall n m, String.length (strftime_now n) = String.length (strftime_now m).

Definition dotted_extensions (P : Platform) : Prop :=
  forall mime e, guess_extension mime = Some e -> e = EmptyString \/ dot_led e.

(** The mocked platform with a clock that stands still. *)
Definition frozen_platform (answer : result Response) : Platform :=
  {| http_post := fun _ => answer;
     strftime_now := fun _ => "20250101_120000_000000";
     guess_type := fun path =>
       if has_suffix ".png" path then Some "image/png" else None;
     guess_extension := fun mime =>
       if String.eqb mime "image/png" then Some ".png" else None;
     parse_int := fun s =>
       match NilZero.int_of_string s with
       | Some i => Ok (Z.of_int i)
       | None => Raise (ValueError "invalid literal for int()")
       end;
     decode_text := fun content => Ok (string_of_list_byte content) |}.

(** Responses without inline data: every key the scan looks for may be
    missing, and no part carries [inline_data]. *)
Definition no_inline_part (part : pyval) : bool :=
  match part with
  | PDict pd => negb (dict_has "inline_data" pd)
  | _ => false
  end.

Definition no_inline_candidate (candidate : pyval) : bool :=
  match candidate with
  | PDict cd =>
      match dict_get "content" cd with
      | None => true
      | Some (PDict content) =>
          match dict_get "parts" content with
          | None => true
          | Some (PList parts) => forallb no_inline_part parts
          | Some _ => false
          end
      | Some _ => false
      end
  | _ => false
  end.

Definition no_inline_response (response : pyval) : bool :=
  match response with
  | PDict rd =>
      match dict_get "candidates" rd with
      | None => true
      | Some (PList candidates) => forallb no_inline_candidate candidates
      | Some _ => false
      end
  | _ => false
  end.

(** A text answer, as the service gives them. *)
Definition text_response (answer : string) : pyval :=
  PDict [("candidates",
          PList [PDict [("content",
                         PDict [("parts", PList [PDict [("text", PStr answer)]]);
                                ("role", PStr "model")]);
                        ("finishReason", PStr "STOP")]]);
         ("modelVersion", PStr "gemini-2.5-pro")].

(** A call of the command-line variant with an empty inline data. *)
Definition cli_text_call : Cli.Args :=
  {| Cli.api_key := "k";
     Cli.gemini_user_prompt := "Hello";
     Cli.gemini_max_tokens := Some 64%Z;
     Cli.gemini_system_instruction := PNone;
     Cli.gemini_inline_data := PDict [];
     Cli.gemini_temperature := Some 0.7%float;
     Cli.gemini_top_p := None;
     Cli.gemini_top_k := None;
     Cli.gemini_candidate_count := None;
     Cli.gemini_safety_threshold := None;
     Cli.gemini_api_version := None;
     Cli.model := Some "gemini-3-pro-preview" |}.

(** The extension of a file written is what [guess_extension] gave for
    some MIME type. *)
Definition wr_guessed {P : Platform} (r : written) : Prop :=
  exists mime, wr_ext r = guess_extension mime.

(** [s.startswith(p)] *)
Fixpoint starts_with (p s : string) : bool :=
  match p, s with
  | EmptyString, _ => true
  | String _ _, EmptyString => false
  | String a p', String b s' => Ascii.eqb a b && starts_with p' s'
  end.

(** Every input of the script can be read: the token count parses, the
    two prompt files and the key file are there and decode, and the
    attachment is there when a fourth argument names one. *)
Definition inputs_readable {P : Platform} (argv : list string) (w : World) : Prop :=
  (4 <= List.length argv)%nat
  /\ (exists n, parse_int (Cli.argv_at argv 1) = Ok n)
  /\ (exists content text,
         dict_get (Cli.argv_at argv 2) (fs w) = Some content
         /\ decode_text content = Ok text)
  /\ (exists content text,
         dict_get (Cli.argv_at argv 3) (fs w) = Some content
         /\ decode_text content = Ok text)
  /\ ((5 <= List.length argv)%nat ->
      exists content, dict_get (Cli.argv_at argv 4) (fs w) = Some content)
  /\ (exists content text,
         dict_get "api.key" (fs w) = Some content
         /\ decode_text content = Ok text).

(** The world with some more files opened for reading, and nothing
    else. *)
Definition opened (paths : list string) (w : World) : World :=
  {| fs := fs w; ticks := ticks w; trace := trace w ++ map EvOpenRead paths |}.

(** The responses printed, read off a trace. *)
Definition printed_responses (t : list event) : list pyval :=
  flat_map (fun e => match e with EvPrintJson v => [v] | _ => [] end) t.

Definition cli_with_inline_data (v : pyval) (a : Cli.Args) : Cli.Args :=
  {| Cli.api_key := Cli.api_key a;
     Cli.gemini_user_prompt := Cli.gemini_user_prompt a;
     Cli.gemini_max_tokens := Cli.gemini_max_tokens a;
     Cli.gemini_system_instruction := Cli.gemini_system_instruction a;
     Cli.gemini_inline_data := v;
     Cli.gemini_temperature := Cli.gemini_temperature a;
     Cli.gemini_top_p := Cli.gemini_top_p a;
     Cli.gemini_top_k := Cli.gemini_top_k a;
     Cli.gemini_candidate_count := Cli.gemini_candidate_count a;
     Cli.gemini_safety_threshold := Cli.gemini_safety_threshold a;
     Cli.gemini_api_version := Cli.gemini_api_version a;
     Cli.model := Cli.model a |}.

(** Responses the scan gets through: every part is a mapping, and one
    that carries inline data carries a mapping whose [data] decodes and
    whose [mime_type], when present, is a string. *)
Definition sound_part (part : pyval) : bool :=
  match part with
  | PDict pd =>
      match dict_get "inline_data" pd with
      | None => true
      | Some (PDict inline) =>
          match dict_get "mime_type" inline with
          | None | Some (PStr _) => true
          | Some _ => false
          end
          && match dict_get "data" inline with
             | Some data => is_ok (b64decode data)
             | None => false
             end
      | Some _ => false
      end
  | _ => false
  end.

Definition sound_candidate (candidate : pyval) : bool :=
  match candidate with
  | PDict cd =>
      match dict_get "content" cd with
      | None => true
      | Some (PDict content) =>
          match dict_get "parts" content with
          | None => true
          | Some (PList parts) => forallb sound_part parts
          | Some _ => false
          end
      | Some _ => false
      end
  | _ => false
  end.

Definition sound_response (response : pyval) : bool :=
  match response with
  | PDict rd =>
      match dict_get "candidates" rd with
      | None => true
      | Some (PList candidates) => forallb sound_candidate candidates
      | Some _ => false
      end
  | _ => false
  end.

(** The number of parts that carry inline data. *)
Definition inline_in_part (part : pyval) : nat :=
  match part with
  | PDict pd => if dict_has "inline_data" pd then 1 else 0
  | _ => 0
  end.

Definition inline_in_candidate (candidate : pyval) : nat :=
  match candidate with
  | PDict cd =>
      match dict_get "content" cd with
      | Some (PDict content) =>
          match dict_get "parts" content with
          | Some (PList parts) => list_sum (map inline_in_part parts)
          | _ => 0
          end
      | _ => 0
      end
  | _ => 0
  end.

Definition inline_in_response (response : pyval) : nat :=
  match response with
  | PDict rd =>
      match dict_get "candidates" rd with
      | Some (PList candidates) => list_sum (map inline_in_candidate candidates)
      | _ => 0
      end
  | _ => 0
  end.

(** A run went through and wrote [k] files, reading the clock once for
    each. *)
Definition scanned (k : nat) (w : World) (out : result unit * World) : Prop :=
  fst out = Ok tt
  /\ List.length (writes (trace (snd out))) = (List.length (writes (trace w)) + k)%nat
  /\ ticks (snd out) = (ticks w + k)%nat.

(** A successful answer that carries a text response. *)
Definition text_answer : Response :=
  response_of 200 "" (Ok (text_response "A cat on a mat.")).

(** * Properties *)

Local Open Scope py_scope.

(** ** The base64 codec is a round trip *)

Module Base64Facts.
Import Base64.

Lemma in_all_bytes (b : byte) : In b all_bytes.
Proof.
  assert (E : existsb (Byte.eqb b) all_bytes = true) by (destruct b; reflexivity).
  apply existsb_exists in E. destruct E as [x [Hin Heq]].
  apply Byte.byte_dec_bl in Heq. now subst.
Qed.

Lemma forall_byte (P : byte -> bool) :
  forallb P all_bytes = true -> forall b, P b = true.
Proof.
  intros H b. rewrite forallb_forall in H. apply H, in_all_bytes.
Qed.

Lemma forall_byte2 (P : byte -> byte -> bool) :
  forallb (fun a => forallb (P a) all_bytes) all_bytes = true ->
  forall a b, P a b = true.
Proof.
  intros H a b. apply (forall_byte (P a)). apply (forall_byte _ H a).
Qed.

Lemma good_sextet0 a : good_letter (sextet0 a) = true.
Proof. revert a. apply forall_byte. vm_compute. reflexivity. Qed.

Lemma good_sextet1 a b : good_letter (sextet1 a b) = true.
Proof. revert a b. apply forall_byte2. vm_compute. reflexivity. Qed.

Lemma good_sextet2 a b : good_letter (sextet2 a b) = true.
Proof. revert a b. apply forall_byte2. vm_compute. reflexivity. Qed.

Lemma good_sextet3 a : good_letter (sextet3 a) = true.
Proof. revert a. apply forall_byte. vm_compute. reflexivity. Qed.

Lemma first_byte a b :
  byte_of_N (N.lor (N.shiftl (sextet0 a) 2) (N.shiftr (sextet1 a b) 4)) = a.
Proof.
  apply Byte.byte_dec_bl. revert a b.
  apply (forall_byte2 (fun a b => Byte.eqb _ a)). vm_compute. reflexivity.
Qed.

Lemma second_byte a b c :
  byte_of_N (N.lor (N.shiftl (N.land (sextet1 a b) 15) 4) (N.shiftr (sextet2 b c) 2)) = b.
Proof.
  assert (E : N.land (sextet1 a b) 15 = N.shiftr (Byte.to_N b) 4).
  { apply N.eqb_eq. revert a b.
    apply (forall_byte2 (fun a b => N.eqb (N.land (sextet1 a b) 15) _)).
    vm_compute. reflexivity. }
  rewrite E. clear E. apply Byte.byte_dec_bl. revert b c.
  apply (forall_byte2 (fun b c => Byte.eqb _ b)). vm_compute. reflexivity.
Qed.

Lemma third_byte b c :
  byte_of_N (N.lor (N.shiftl (N.land (sextet2 b c) 3) 6) (sextet3 c)) = c.
Proof.
  apply Byte.byte_dec_bl. revert b c.
  apply (forall_byte2 (fun b c => Byte.eqb _ c)). vm_compute. reflexivity.
Qed.

(** One data letter moves the loop one position ahead. *)
Lemma decode_loop_letter v rest quad_pos leftchar pads out :
  good_letter v = true ->
  decode_loop (String (b2a v) rest) quad_pos leftchar pads out =
  match quad_pos with
  | 0%nat => decode_loop rest 1 v 0 out
  | 1%nat =>
      decode_loop rest 2 (N.land v 15) 0
        (out ++ [byte_of_N (N.lor (N.shiftl leftchar 2) (N.shiftr v 4))])
  | 2%nat =>
      decode_loop rest 3 (N.land v 3) 0
        (out ++ [byte_of_N (N.lor (N.shiftl leftchar 4) (N.shiftr v 2))])
  | _ => decode_loop rest 0 0 0 (out ++ [byte_of_N (N.lor (N.shiftl leftchar 6) v)])
  end.
Proof.
  unfold good_letter. intros G.
  apply andb_prop in G. destruct G as [G Hback].
  apply andb_prop in G. destruct G as [Hpad _].
  apply negb_true_iff in Hpad.
  cbn [decode_loop]. rewrite Hpad.
  destruct (a2b (b2a v)) as [v'|]; [|discriminate].
  apply N.eqb_eq in Hback. subst v'. reflexivity.
Qed.

Lemma decode_loop_pad rest quad_pos leftchar pads out :
  decode_loop (String pad rest) quad_pos leftchar pads out =
  if (2 <=? quad_pos)%nat then
    if (4 <=? quad_pos + S pads)%nat then Ok out
    else decode_loop rest quad_pos leftchar (S pads) out
  else decode_loop rest quad_pos leftchar pads out.
Proof. reflexivity. Qed.

Lemma list_ind3 {A} (P : list A -> Prop) :
  P [] -> (forall a, P [a]) -> (forall a b, P [a; b]) ->
  (forall a b c l, P l -> P (a :: b :: c :: l)) ->
  forall l, P l.
Proof.
  intros H0 H1 H2 H3. fix IH 1.
  intros [|a [|b [|c l]]]; [exact H0 | apply H1 | apply H2 | apply H3, IH].
Qed.

Lemma decode_loop_encode bs : forall out,
  decode_loop (encode bs) 0 0 0 out = Ok (out ++ bs).
Proof.
  induction bs as [|a|a b|a b c l IH] using list_ind3; intros out.
  - cbn. now rewrite app_nil_r.
  - cbn [encode].
    rewrite (decode_loop_letter _ _ _ _ _ _ (good_sextet0 a)).
    rewrite (decode_loop_letter _ _ _ _ _ _ (good_sextet1 a x00)).
    rewrite !decode_loop_pad. cbn [Nat.leb Nat.add].
    now rewrite first_byte.
  - cbn [encode].
    rewrite (decode_loop_letter _ _ _ _ _ _ (good_sextet0 a)).
    rewrite (decode_loop_letter _ _ _ _ _ _ (good_sextet1 a b)).
    rewrite (decode_loop_letter _ _ _ _ _ _ (good_sextet2 b x00)).
    rewrite decode_loop_pad. cbn [Nat.leb Nat.add].
    rewrite first_byte, second_byte, <- app_assoc. reflexivity.
  - cbn [encode].
    rewrite (decode_loop_letter _ _ _ _ _ _ (good_sextet0 a)).
    rewrite (decode_loop_letter _ _ _ _ _ _ (good_sextet1 a b)).
    rewrite (decode_loop_letter _ _ _ _ _ _ (good_sextet2 b c)).
    rewrite (decode_loop_letter _ _ _ _ _ _ (good_sextet3 c)).
    rewrite first_byte, second_byte, third_byte, IH.
    rewrite <- !app_assoc. reflexivity.
Qed.

Lemma good_letter_ascii v : good_letter v = true -> is_ascii (b2a v) = true.
Proof.
  unfold good_letter. intros G.
  apply andb_prop in G. destruct G as [G _].
  apply andb_prop in G. now destruct G.
Qed.

Lemma encode_all_ascii bs : all_ascii (encode bs) = true.
Proof.
  induction bs as [|a|a b|a b c l IH] using list_ind3; cbn [encode all_ascii].
  - reflexivity.
  - now rewrite (good_letter_ascii _ (good_sextet0 a)),
      (good_letter_ascii _ (good_sextet1 a x00)).
  - now rewrite (good_letter_ascii _ (good_sextet0 a)),
      (good_letter_ascii _ (good_sextet1 a b)), (good_letter_ascii _ (good_sextet2 b x00)).
  - now rewrite (good_letter_ascii _ (good_sextet0 a)),
      (good_letter_ascii _ (good_sextet1 a b)), (good_letter_ascii _ (good_sextet2 b c)),
      (good_letter_ascii _ (good_sextet3 c)), IH.
Qed.

Lemma decode_encode bs : decode (encode bs) = Ok bs.
Proof.
  unfold decode. rewrite encode_all_ascii. apply (decode_loop_encode bs []).
Qed.

End Base64Facts.

Lemma b64decode_b64encode (bs : list byte) : b64decode (PStr (b64encode bs)) = Ok bs.
Proof. apply Base64Facts.decode_encode. Qed.

Example encode_Man : b64encode ["M"%byte; "a"%byte; "n"%byte] = "TWFu".
Proof. reflexivity. Qed.

Example encode_Ma : b64encode ["M"%byte; "a"%byte] = "TWE=".
Proof. reflexivity. Qed.

Example decode_M : b64decode (PStr "TQ==") = Ok ["M"%byte].
Proof. reflexivity. Qed.

Example decode_skips_newline :
  b64decode (PStr (String "010"%char "TWFu")) = Ok ["M"%byte; "a"%byte; "n"%byte].
Proof. reflexivity. Qed.

Example decode_dangling : is_ok (b64decode (PStr "TWF")) = false.
Proof. reflexivity. Qed.

(** ** What a call does to the world *)

Lemma posts_app t1 t2 : posts (t1 ++ t2) = posts t1 ++ posts t2.
Proof. apply flat_map_app. Qed.

Lemma writes_app t1 t2 : writes (t1 ++ t2) = writes t1 ++ writes t2.
Proof. apply flat_map_app. Qed.

Lemma prints_app t1 t2 : prints (t1 ++ t2) = prints t1 ++ prints t2.
Proof. apply flat_map_app. Qed.

Lemma opens_app t1 t2 : opens (t1 ++ t2) = opens t1 ++ opens t2.
Proof. apply flat_map_app. Qed.

Lemma raise_for_status_error r :
  (400 <= status_code r < 600)%Z ->
  raise_for_status r = Raise (HTTPError (status_code r)).
Proof.
  intros [Hlo Hhi]. unfold raise_for_status.
  apply Z.leb_le in Hlo. apply Z.ltb_lt in Hhi. now rewrite Hlo, Hhi.
Qed.

Lemma raise_for_status_pass r :
  ~ (400 <= status_code r < 600)%Z -> raise_for_status r = Ok tt.
Proof.
  intros H. unfold raise_for_status.
  destruct (400 <=? status_code r)%Z eqn:Hlo; [|reflexivity].
  destruct (status_code r <? 600)%Z eqn:Hhi; [|reflexivity].
  apply Z.leb_le in Hlo. apply Z.ltb_lt in Hhi. exfalso. apply H. lia.
Qed.

(** The command-line variant: one request, then either the parsed body
    or the printed report followed by the error. *)
Lemma cli_call_run {P : Platform} (a : Cli.Args) (n : Z) (w : World) :
  Cli.gemini_max_tokens a = Some n ->
  run (Cli.call_gemini_api a) w =
  match http_post (cli_request a n) with
  | Raise e => (Raise e, log (EvPost (cli_request a n)) w)
  | Ok r =>
      match raise_for_status r with
      | Ok _ => (json r, log (EvPost (cli_request a n)) w)
      | Raise e =>
          (Raise e,
           log (EvPrint ("Error " ++ str_of_Z (status_code r) ++ ": " ++ text r))
               (log (EvPost (cli_request a n)) w))
      end
  end.
Proof.
  intros Hn. unfold run, Cli.call_gemini_api. rewrite Hn.
  unfold bind, post, bind, emit, lift, print, emit, ok.
  fold (cli_request a n).
  destruct (http_post (cli_request a n)) as [r|e]; [|reflexivity].
  destruct (raise_for_status r) as [[]|e]; reflexivity.
Qed.

Lemma cli_call_missing_max_tokens {P : Platform} (a : Cli.Args) (w : World) :
  Cli.gemini_max_tokens a = None ->
  exists msg, run (Cli.call_gemini_api a) w = (Raise (TypeError msg), w).
Proof.
  intros Hn. unfold run, Cli.call_gemini_api. rewrite Hn. eexists. reflexivity.
Qed.

(** The plain variant: one request, then the parsed body or the error. *)
Lemma plain_call_run {P : Platform} (a : Plain.Args) (w : World) :
  run (Plain.call_gemini_api a) w =
  match http_post (plain_request a) with
  | Raise e => (Raise e, log (EvPost (plain_request a)) w)
  | Ok r =>
      match raise_for_status r with
      | Ok _ => (json r, log (EvPost (plain_request a)) w)
      | Raise e => (Raise e, log (EvPost (plain_request a)) w)
      end
  end.
Proof.
  unfold run, Plain.call_gemini_api.
  unfold bind, post, bind, emit, lift.
  fold (plain_request a).
  destruct (http_post (plain_request a)) as [r|e]; [|reflexivity].
  destruct (raise_for_status r) as [[]|e]; reflexivity.
Qed.

Lemma cli_call_posts_once {P : Platform} (a : Cli.Args) (n : Z) (w : World) :
  Cli.gemini_max_tokens a = Some n ->
  posts (trace (snd (run (Cli.call_gemini_api a) w))) =
  posts (trace w) ++ [cli_request a n].
Proof.
  intros Hn. rewrite (cli_call_run a n w Hn).
  destruct (http_post (cli_request a n)) as [r|e];
    [destruct (raise_for_status r) as [[]|e]|]; cbn [snd log trace];
    rewrite ?posts_app; cbn; now rewrite ?app_nil_r.
Qed.

Lemma plain_call_posts_once {P : Platform} (a : Plain.Args) (w : World) :
  posts (trace (snd (run (Plain.call_gemini_api a) w))) =
  posts (trace w) ++ [plain_request a].
Proof.
  rewrite (plain_call_run a w).
  destruct (http_post (plain_request a)) as [r|e];
    [destruct (raise_for_status r) as [[]|e]|]; cbn [snd log trace];
    rewrite ?posts_app; cbn; now rewrite ?app_nil_r.
Qed.

(** ** The shape of the payload *)

Lemma cli_payload_shape (a : Cli.Args) (n : Z) :
  Cli.payload_of a n =
  [ ("contents", PList [PDict [("parts", PList (Cli.parts_of a))]]);
    ("generationConfig",
     generation_config n
       (default 1.0%float (Cli.gemini_temperature a))
       (default 0.95%float (Cli.gemini_top_p a))
       (default 40%Z (Cli.gemini_top_k a))
       (default 1%Z (Cli.gemini_candidate_count a)));
    ("safetySettings",
     safety_settings (default "BLOCK_ONLY_HIGH" (Cli.gemini_safety_threshold a))) ]
  ++ (if truthy (Cli.gemini_system_instruction a)
      then [("systemInstruction", Cli.gemini_system_instruction a)]
      else []).
Proof.
  unfold Cli.payload_of.
  destruct (truthy (Cli.gemini_system_instruction a)); reflexivity.
Qed.

Lemma plain_payload_shape (a : Plain.Args) :
  Plain.payload_of a =
  [ ("contents",
     PList [PDict [("parts", PList [PDict [("text", PStr (Plain.gemini_user_prompt a))]])]]);
    ("generationConfig",
     generation_config
       (default 8192%Z (Plain.gemini_max_tokens a))
       (default 1.0%float (Plain.gemini_temperature a))
       (default 0.95%float (Plain.gemini_top_p a))
       (default 40%Z (Plain.gemini_top_k a))
       (default 1%Z (Plain.gemini_candidate_count a)));
    ("safetySettings",
     safety_settings (default "BLOCK_ONLY_HIGH" (Plain.gemini_safety_threshold a))) ]
  ++ (if truthy (Plain.gemini_system_instruction a)
      then [("systemInstruction", Plain.gemini_system_instruction a)]
      else []).
Proof.
  unfold Plain.payload_of.
  destruct (truthy (Plain.gemini_system_instruction a)); reflexivity.
Qed.

Lemma cli_parts_shape (a : Cli.Args) :
  Cli.parts_of a =
  PDict [("text", PStr (Cli.gemini_user_prompt a))]
  :: (if truthy (Cli.gemini_inline_data a)
      then [PDict [("inline_data", Cli.gemini_inline_data a)]]
      else []).
Proof.
  unfold Cli.parts_of. destruct (truthy (Cli.gemini_inline_data a)); reflexivity.
Qed.

Lemma cli_payload_parts (a : Cli.Args) (n : Z) :
  payload_parts (PDict (Cli.payload_of a n)) = Ok (PList (Cli.parts_of a)).
Proof. rewrite cli_payload_shape. reflexivity. Qed.

Lemma cli_payload_text (a : Cli.Args) (n : Z) :
  payload_text (PDict (Cli.payload_of a n)) = Ok (PStr (Cli.gemini_user_prompt a)).
Proof.
  unfold payload_text. rewrite cli_payload_parts, cli_parts_shape. reflexivity.
Qed.

Lemma plain_payload_parts (a : Plain.Args) :
  payload_parts (PDict (Plain.payload_of a)) =
  Ok (PList [PDict [("text", PStr (Plain.gemini_user_prompt a))]]).
Proof. rewrite plain_payload_shape. reflexivity. Qed.

(** A mapping with at least one key is true in a condition. *)
Lemma truthy_dict_with_key (k : string) (d : dict) :
  dict_has k d = true -> truthy (PDict d) = true.
Proof. destruct d; [discriminate | reflexivity]. Qed.

(** ** The request payload *)

(** C1 (amended).  Every call of either variant sends a payload whose
    [contents[0].parts[0].text] is the prompt it was given, unchanged,
    and the text part is first in [parts].  In the command-line variant
    the inline-data part follows it as the only other part exactly when
    the inline-data argument is true in a condition; when the argument
    is left out, or is supplied but false in a condition (the empty
    mapping), [parts] is the text part alone.  The plain variant has no
    inline-data argument and sends the text part alone. *)
Theorem C1_text_part_first :
  (forall (P : Platform) (a : Cli.Args) (n : Z) (w : World),
      Cli.gemini_max_tokens a = Some n ->
      posts (trace (snd (run (Cli.call_gemini_api a) w)))
      = posts (trace w) ++ [cli_request a n]
      /\ payload_text (req_payload (cli_request a n))
         = Ok (PStr (Cli.gemini_user_prompt a))
      /\ (truthy (Cli.gemini_inline_data a) = true ->
          payload_parts (req_payload (cli_request a n))
          = Ok (PList [PDict [("text", PStr (Cli.gemini_user_prompt a))];
                       PDict [("inline_data", Cli.gemini_inline_data a)]]))
      /\ (truthy (Cli.gemini_inline_data a) = false ->
          payload_parts (req_payload (cli_request a n))
          = Ok (PList [PDict [("text", PStr (Cli.gemini_user_prompt a))]]))
      /\ (Cli.gemini_inline_data a = PNone ->
          payload_parts (req_payload (cli_request a n))
          = Ok (PList [PDict [("text", PStr (Cli.gemini_user_prompt a))]])))
  /\
  (forall (P : Platform) (a : Plain.Args) (w : World),
      posts (trace (snd (run (Plain.call_gemini_api a) w)))
      = posts (trace w) ++ [plain_request a]
      /\ payload_text (req_payload (plain_request a))
         = Ok (PStr (Plain.gemini_user_prompt a))
      /\ payload_parts (req_payload (plain_request a))
         = Ok (PList [PDict [("text", PStr (Plain.gemini_user_prompt a))]])).
Proof.
  split.
  - intros P a n w Hn. cbn [req_payload cli_request].
    rewrite cli_payload_text, cli_payload_parts, cli_parts_shape.
    split; [now apply cli_call_posts_once|]. split; [reflexivity|].
    split; [|split].
    + intros Htrue. now rewrite Htrue.
    + intros Hfalse. now rewrite Hfalse.
    + intros Hnone. now rewrite Hnone.
  - intros P a w. cbn [req_payload plain_request].
    unfold payload_text. rewrite plain_payload_parts.
    repeat split. apply plain_call_posts_once.
Qed.

Lemma C1_text_part_first_witness :
  Cli.gemini_max_tokens sample_cli_args = Some 256%Z
  /\ truthy (Cli.gemini_inline_data sample_cli_args) = true
  /\ payload_parts (req_payload (cli_request sample_cli_args 256))
     = Ok (PList [PDict [("text", PStr "Describe the image")];
                  PDict [("inline_data", PDict sample_inline_data)]]).
Proof.
  do 2 (split; [reflexivity|]).
  exact (proj1 (proj2 (proj2
           (proj1 C1_text_part_first (mock_platform (Raise ConnectionError))
              sample_cli_args 256%Z empty_world eq_refl))) eq_refl).
Defined.

(** C1, counterexample.  The empty mapping is an inline-data argument
    that is supplied, and no inline-data part is appended: [parts] is
    the text part alone, of length one. *)
Lemma C1_counterexample :
  Cli.gemini_inline_data (cli_with_inline_data (PDict []) sample_cli_args) = PDict []
  /\ PDict [] <> PNone
  /\ payload_parts
       (req_payload (cli_request (cli_with_inline_data (PDict []) sample_cli_args) 256))
     = Ok (PList [PDict [("text", PStr "Describe the image")]])
  /\ posts (trace (snd (run (Cli.call_gemini_api
                               (platform := mock_platform (Raise ConnectionError))
                               (cli_with_inline_data (PDict []) sample_cli_args))
                          empty_world)))
     = [cli_request (cli_with_inline_data (PDict []) sample_cli_args) 256].
Proof.
  split; [reflexivity|]. split; [discriminate|]. split; reflexivity.
Qed.

Lemma cli_system_instruction_key (a : Cli.Args) (n : Z) :
  dict_get "systemInstruction" (Cli.payload_of a n) =
  if truthy (Cli.gemini_system_instruction a)
  then Some (Cli.gemini_system_instruction a)
  else None.
Proof.
  rewrite cli_payload_shape.
  destruct (truthy (Cli.gemini_system_instruction a)); reflexivity.
Qed.

Lemma plain_system_instruction_key (a : Plain.Args) :
  dict_get "systemInstruction" (Plain.payload_of a) =
  if truthy (Plain.gemini_system_instruction a)
  then Some (Plain.gemini_system_instruction a)
  else None.
Proof.
  rewrite plain_payload_shape.
  destruct (truthy (Plain.gemini_system_instruction a)); reflexivity.
Qed.

(** C3 (amended).  In both variants the payload has no
    [systemInstruction] key at all when no system instruction is
    supplied, and likewise when the one supplied is false in a
    condition (the empty mapping); when the system instruction supplied
    is true in a condition, the key is present with that value. *)
Theorem C3_system_instruction_key :
  (forall (a : Cli.Args) (n : Z),
      (Cli.gemini_system_instruction a = PNone ->
       dict_get "systemInstruction" (Cli.payload_of a n) = None)
      /\ (truthy (Cli.gemini_system_instruction a) = false ->
          dict_get "systemInstruction" (Cli.payload_of a n) = None)
      /\ (truthy (Cli.gemini_system_instruction a) = true ->
          dict_get "systemInstruction" (Cli.payload_of a n)
          = Some (Cli.gemini_system_instruction a)))
  /\
  (forall a : Plain.Args,
      (Plain.gemini_system_instruction a = PNone ->
       dict_get "systemInstruction" (Plain.payload_of a) = None)
      /\ (truthy (Plain.gemini_system_instruction a) = false ->
          dict_get "systemInstruction" (Plain.payload_of a) = None)
      /\ (truthy (Plain.gemini_system_instruction a) = true ->
          dict_get "systemInstruction" (Plain.payload_of a)
          = Some (Plain.gemini_system_instruction a))).
Proof.
  split.
  - intros a n. rewrite cli_system_instruction_key.
    repeat split; intros H; now rewrite H.
  - intros a. rewrite plain_system_instruction_key.
    repeat split; intros H; now rewrite H.
Qed.

Lemma C3_system_instruction_key_witness :
  truthy (Cli.gemini_system_instruction sample_cli_args) = true
  /\ dict_get "systemInstruction" (Cli.payload_of sample_cli_args 256)
     = Some (PDict [("parts", PList [PDict [("text", PStr "Be brief")]])])
  /\ Plain.gemini_system_instruction (plain_minimal "k" "Hello") = PNone
  /\ dict_get "systemInstruction" (Plain.payload_of (plain_minimal "k" "Hello")) = None.
Proof.
  split; [reflexivity|]. split.
  - exact (proj2 (proj2 (proj1 C3_system_instruction_key sample_cli_args 256%Z)) eq_refl).
  - split; [reflexivity|].
    exact (proj1 (proj2 C3_system_instruction_key (plain_minimal "k" "Hello")) eq_refl).
Defined.

(** C3, counterexample.  The empty mapping is a system instruction that
    is supplied, and the key is not in the payload. *)
Lemma C3_counterexample :
  Cli.gemini_system_instruction
    (cli_with_system_instruction (PDict []) sample_cli_args) = PDict []
  /\ PDict [] <> PNone
  /\ dict_get "systemInstruction"
       (Cli.payload_of (cli_with_system_instruction (PDict []) sample_cli_args) 256)
     = None
  /\ dict_get "systemInstruction"
       (Plain.payload_of
          (plain_with_system_instruction (PDict []) (plain_minimal "k" "Hello")))
     = None.
Proof. repeat split. discriminate. Qed.

(** C10.  In both variants a system-instruction argument that is
    supplied but false in a condition (the empty mapping, for one)
    leaves the payload, and so the request, exactly as it is when the
    argument is left out: no [systemInstruction] key. *)
Theorem C10_falsy_system_instruction_omitted :
  (forall (a : Cli.Args) (n : Z),
      truthy (Cli.gemini_system_instruction a) = false ->
      Cli.payload_of a n = Cli.payload_of (cli_with_system_instruction PNone a) n
      /\ cli_request a n = cli_request (cli_with_system_instruction PNone a) n
      /\ dict_has "systemInstruction" (Cli.payload_of a n) = false)
  /\
  (forall a : Plain.Args,
      truthy (Plain.gemini_system_instruction a) = false ->
      Plain.payload_of a = Plain.payload_of (plain_with_system_instruction PNone a)
      /\ plain_request a = plain_request (plain_with_system_instruction PNone a)
      /\ dict_has "systemInstruction" (Plain.payload_of a) = false).
Proof.
  split.
  - intros a n H.
    assert (E : Cli.payload_of a n
                = Cli.payload_of (cli_with_system_instruction PNone a) n).
    { unfold Cli.payload_of. rewrite H. reflexivity. }
    repeat split.
    + exact E.
    + unfold cli_request. now rewrite E.
    + unfold dict_has. now rewrite cli_system_instruction_key, H.
  - intros a H.
    assert (E : Plain.payload_of a
                = Plain.payload_of (plain_with_system_instruction PNone a)).
    { unfold Plain.payload_of. rewrite H. reflexivity. }
    repeat split.
    + exact E.
    + unfold plain_request. now rewrite E.
    + unfold dict_has. now rewrite plain_system_instruction_key, H.
Qed.

Lemma C10_falsy_system_instruction_omitted_witness :
  truthy (Cli.gemini_system_instruction
            (cli_with_system_instruction (PDict []) sample_cli_args)) = false
  /\ cli_request (cli_with_system_instruction (PDict []) sample_cli_args) 256
     = cli_request
         (cli_with_system_instruction PNone
            (cli_with_system_instruction (PDict []) sample_cli_args)) 256.
Proof.
  split; [reflexivity|].
  exact (proj1 (proj2 (proj1 C10_falsy_system_instruction_omitted
                         (cli_with_system_instruction (PDict []) sample_cli_args)
                         256%Z eq_refl))).
Defined.

Lemma safety_settings_entries (t : string) :
  exists entries,
    safety_settings t = PList entries
    /\ List.length entries = 4%nat
    /\ map (fun e => py_getitem e "category") entries
       = map (fun c => Ok (PStr c)) harm_categories
    /\ Forall (fun e => py_getitem e "threshold" = Ok (PStr t)) entries.
Proof.
  eexists. split; [reflexivity|]. split; [reflexivity|]. split; [reflexivity|].
  repeat constructor.
Qed.

(** C4.  In both variants the payload's [safetySettings] is a list of
    exactly four entries, one for each of hate speech, harassment,
    sexually explicit and dangerous content, in that order, and the
    threshold of every entry is the one safety-threshold string of the
    call (the caller's, or the default when the caller leaves it out). *)
Theorem C4_safety_settings :
  (forall (a : Cli.Args) (n : Z),
      exists entries,
        py_getitem (PDict (Cli.payload_of a n)) "safetySettings" = Ok (PList entries)
        /\ List.length entries = 4%nat
        /\ map (fun e => py_getitem e "category") entries
           = map (fun c => Ok (PStr c)) harm_categories
        /\ Forall (fun e =>
                     py_getitem e "threshold"
                     = Ok (PStr (default "BLOCK_ONLY_HIGH" (Cli.gemini_safety_threshold a))))
             entries)
  /\
  (forall a : Plain.Args,
      exists entries,
        py_getitem (PDict (Plain.payload_of a)) "safetySettings" = Ok (PList entries)
        /\ List.length entries = 4%nat
        /\ map (fun e => py_getitem e "category") entries
           = map (fun c => Ok (PStr c)) harm_categories
        /\ Forall (fun e =>
                     py_getitem e "threshold"
                     = Ok (PStr (default "BLOCK_ONLY_HIGH" (Plain.gemini_safety_threshold a))))
             entries).
Proof.
  split.
  - intros a n.
    destruct (safety_settings_entries
                (default "BLOCK_ONLY_HIGH" (Cli.gemini_safety_threshold a)))
      as [entries [E H]].
    exists entries. split; [|exact H].
    rewrite cli_payload_shape. cbn. now rewrite E.
  - intros a.
    destruct (safety_settings_entries
                (default "BLOCK_ONLY_HIGH" (Plain.gemini_safety_threshold a)))
      as [entries [E H]].
    exists entries. split; [|exact H].
    rewrite plain_payload_shape. cbn. now rewrite E.
Qed.

(** C9 (amended).  The plain variant has a default for each of the
    five numeric generation parameters (8192 output tokens, temperature
    1.0, top-p 0.95, top-k 40, one candidate); the command-line variant
    has the same defaults for four of them and requires the maximum of
    output tokens, a call without it raising [TypeError] before anything
    is sent.  Whatever the caller gives replaces the default, and every
    value is placed in [generationConfig] and sent as it is, whatever
    its magnitude or sign. *)
Theorem C9_generation_defaults :
  (forall a : Plain.Args,
      py_getitem (PDict (Plain.payload_of a)) "generationConfig"
      = Ok (generation_config
              (default 8192%Z (Plain.gemini_max_tokens a))
              (default 1.0%float (Plain.gemini_temperature a))
              (default 0.95%float (Plain.gemini_top_p a))
              (default 40%Z (Plain.gemini_top_k a))
              (default 1%Z (Plain.gemini_candidate_count a))))
  /\ (forall (P : Platform) (a : Plain.Args) (w : World),
         posts (trace (snd (run (Plain.call_gemini_api a) w)))
         = posts (trace w) ++ [plain_request a])
  /\ (forall (a : Cli.Args) (n : Z),
         py_getitem (PDict (Cli.payload_of a n)) "generationConfig"
         = Ok (generation_config n
                 (default 1.0%float (Cli.gemini_temperature a))
                 (default 0.95%float (Cli.gemini_top_p a))
                 (default 40%Z (Cli.gemini_top_k a))
                 (default 1%Z (Cli.gemini_candidate_count a))))
  /\ (forall (P : Platform) (a : Cli.Args) (n : Z) (w : World),
         Cli.gemini_max_tokens a = Some n ->
         posts (trace (snd (run (Cli.call_gemini_api a) w)))
         = posts (trace w) ++ [cli_request a n])
  /\ (forall (P : Platform) (a : Cli.Args) (w : World),
         Cli.gemini_max_tokens a = None ->
         exists msg, run (Cli.call_gemini_api a) w = (Raise (TypeError msg), w)).
Proof.
  split; [|split; [|split; [|split]]].
  - intros a. rewrite plain_payload_shape. reflexivity.
  - intros P a w. apply plain_call_posts_once.
  - intros a n. rewrite cli_payload_shape. reflexivity.
  - intros P a n w Hn. now apply cli_call_posts_once.
  - intros P a w Hn. now apply cli_call_missing_max_tokens.
Qed.

Lemma C9_generation_defaults_witness :
  Cli.gemini_max_tokens sample_cli_args = Some 256%Z
  /\ posts (trace (snd (run (Cli.call_gemini_api (platform := mock_platform (Raise ConnectionError))
                               sample_cli_args) empty_world)))
     = posts (trace empty_world) ++ [cli_request sample_cli_args 256]
  /\ Cli.gemini_max_tokens (cli_minimal "k" "Hello") = None
  /\ exists msg,
       run (Cli.call_gemini_api (platform := mock_platform (Raise ConnectionError))
              (cli_minimal "k" "Hello")) empty_world
       = (Raise (TypeError msg), empty_world).
Proof.
  split; [reflexivity|]. split.
  - exact (proj1 (proj2 (proj2 (proj2 C9_generation_defaults)))
             (mock_platform (Raise ConnectionError)) sample_cli_args 256%Z
             empty_world eq_refl).
  - split; [reflexivity|].
    exact (proj2 (proj2 (proj2 (proj2 C9_generation_defaults)))
             (mock_platform (Raise ConnectionError)) (cli_minimal "k" "Hello")
             empty_world eq_refl).
Defined.

(** C9, counterexample.  In the command-line variant the maximum of
    output tokens has no default: a call that leaves it out raises
    without sending anything, where the same call of the plain variant
    goes through. *)
Lemma C9_counterexample :
  Cli.gemini_max_tokens (cli_minimal "k" "Hello") = None
  /\ run (Cli.call_gemini_api (platform := mock_platform (Ok (response_of 200 "{}" (Ok (PDict [])))))
            (cli_minimal "k" "Hello")) empty_world
     = (Raise (TypeError
                 "call_gemini_api() missing 1 required positional argument: 'gemini_max_tokens'"),
        empty_world)
  /\ fst (run (Plain.call_gemini_api (platform := mock_platform (Ok (response_of 200 "{}" (Ok (PDict [])))))
                 (plain_minimal "k" "Hello")) empty_world)
     = Ok (PDict []).
Proof. repeat split. Qed.

(** ** Sending nothing *)

Lemma no_post_ret {A} (a : A) : no_post (ret a).
Proof. intros w. reflexivity. Qed.

Lemma no_post_lift {A} (r : result A) : no_post (lift r).
Proof. intros w. reflexivity. Qed.

Lemma no_post_bind {A B} (m : M A) (k : A -> M B) :
  no_post m -> (forall a, no_post (k a)) -> no_post (bind m k).
Proof.
  intros Hm Hk w. unfold bind. specialize (Hm w).
  destruct (m w) as [[a|e] w']; cbn [snd] in *.
  - now rewrite Hk.
  - exact Hm.
Qed.

Lemma no_post_print (line : string) : no_post (print line).
Proof.
  intros w. cbn. rewrite posts_app. cbn. apply app_nil_r.
Qed.

Lemma no_post_print_json (v : pyval) : no_post (emit (EvPrintJson v)).
Proof.
  intros w. cbn. rewrite posts_app. cbn. apply app_nil_r.
Qed.

Lemma no_post_write (path : string) (content : list byte) :
  no_post (write_bytes path content).
Proof.
  intros w. cbn. rewrite posts_app. cbn. apply app_nil_r.
Qed.

Lemma no_post_now {P : Platform} : no_post now_stamp.
Proof. intros w. reflexivity. Qed.

Lemma no_post_for_enumerate {P : Platform} (body : nat -> pyval -> M unit) :
  (forall i x, no_post (body i x)) ->
  forall items i, no_post (for_enumerate body i items).
Proof.
  intros Hbody items. induction items as [|x rest IH]; intros i; cbn [for_enumerate].
  - apply no_post_ret.
  - apply no_post_bind; [apply Hbody | intros _; apply IH].
Qed.

Create HintDb no_post.
#[local] Hint Resolve no_post_ret no_post_lift no_post_print no_post_print_json
  no_post_write no_post_now : no_post.

Ltac no_post_step :=
  match goal with
  | |- no_post (bind _ _) => apply no_post_bind; [|intros ?]
  | |- no_post (if ?b then _ else _) => destruct b
  | |- no_post (let _ := _ in _) => cbv zeta
  | |- _ => solve [auto with no_post]
  end.

Lemma no_post_extract_part {P : Platform} (idx part_idx : nat) (part : pyval) :
  no_post (Cli.extract_part idx part_idx part).
Proof. unfold Cli.extract_part. repeat no_post_step. Qed.

Lemma no_post_extract_candidate {P : Platform} (idx : nat) (candidate : pyval) :
  no_post (Cli.extract_candidate idx candidate).
Proof.
  unfold Cli.extract_candidate. repeat no_post_step.
  apply no_post_for_enumerate. intros. apply no_post_extract_part.
Qed.

Lemma no_post_extract_artifacts {P : Platform} (result : pyval) :
  no_post (Cli.extract_artifacts result).
Proof.
  unfold Cli.extract_artifacts. repeat no_post_step.
  apply no_post_for_enumerate. intros. apply no_post_extract_candidate.
Qed.

(** After the call, [main] sends nothing more. *)
Lemma main_tail_posts {P : Platform} (a : Cli.Args) (n : Z) (w : World) :
  Cli.gemini_max_tokens a = Some n ->
  posts (trace (snd (run (main_tail a) w))) = posts (trace w) ++ [cli_request a n].
Proof.
  intros Hn. pose proof (cli_call_posts_once a n w Hn) as Hcall.
  unfold run, main_tail, bind in *.
  destruct (Cli.call_gemini_api a w) as [[result|e] w'] eqn:E.
  - cbn [snd] in Hcall. rewrite <- Hcall.
    pose proof (no_post_bind (Cli.extract_artifacts result)
                  (fun _ => emit (EvPrintJson result))
                  (no_post_extract_artifacts result)
                  (fun _ => no_post_print_json result) w') as H.
    exact H.
  - exact Hcall.
Qed.

(** An error in the call ends [main] there. *)
Lemma main_tail_raises {P : Platform} (a : Cli.Args) (w w' : World) (e : exn) :
  run (Cli.call_gemini_api a) w = (Raise e, w') ->
  run (main_tail a) w = (Raise e, w').
Proof. unfold run, main_tail, bind. intros H. now rewrite H. Qed.

(** ** The command line *)

Lemma main_usage {P : Platform} (argv : list string) (w : World) :
  (List.length argv < 4)%nat ->
  run (Cli.main argv) w = (Raise (SystemExit 1), log (EvPrint Cli.usage) w).
Proof.
  intros H. apply Nat.ltb_lt in H. unfold run, Cli.main. rewrite H. reflexivity.
Qed.

(** With an attachment: four files are read, then the call is made. *)
Lemma main_with_attachment {P : Platform} (argv : list string) (w : World) (n : Z)
      (sys_bytes prompt_bytes content key_bytes : list byte)
      (sys_text prompt_text key_text : string) :
  (5 <= List.length argv)%nat ->
  parse_int (Cli.argv_at argv 1) = Ok n ->
  dict_get (Cli.argv_at argv 2) (fs w) = Some sys_bytes ->
  decode_text sys_bytes = Ok sys_text ->
  dict_get (Cli.argv_at argv 3) (fs w) = Some prompt_bytes ->
  decode_text prompt_bytes = Ok prompt_text ->
  dict_get (Cli.argv_at argv 4) (fs w) = Some content ->
  dict_get "api.key" (fs w) = Some key_bytes ->
  decode_text key_bytes = Ok key_text ->
  run (Cli.main argv) w =
  run (main_tail (main_args n sys_text prompt_text
                    (attachment (Cli.argv_at argv 4) content) (strip key_text)))
      (after_reads argv w).
Proof.
  intros Hlen Hn Hsys Hsys' Hprompt Hprompt' Hbin Hkey Hkey'.
  assert (H4 : (List.length argv <? 4)%nat = false) by (apply Nat.ltb_ge; lia).
  apply Nat.leb_le in Hlen.
  unfold run, Cli.main. rewrite H4.
  unfold Cli.read_inline_data. rewrite Hlen.
  unfold bind at 1. unfold lift at 1. rewrite Hn.
  unfold bind at 1. unfold read_text at 1, bind at 1, read_bytes at 1, bind at 1.
  cbn [emit fs log]. rewrite Hsys. unfold lift at 1. rewrite Hsys'.
  unfold bind at 1. unfold read_text at 1, bind at 1, read_bytes at 1, bind at 1.
  cbn [emit fs log]. rewrite Hprompt. unfold lift at 1. rewrite Hprompt'.
  unfold bind at 1. unfold bind at 1, read_bytes at 1, bind at 1.
  cbn [emit fs log]. rewrite Hbin. unfold ret at 1.
  unfold bind at 1. unfold read_text at 1, bind at 1, read_bytes at 1, bind at 1.
  cbn [emit fs log]. rewrite Hkey. unfold lift at 1. rewrite Hkey'.
  reflexivity.
Qed.

(** Without an attachment: three files are read, then the call is made. *)
Lemma main_without_attachment {P : Platform} (argv : list string) (w : World) (n : Z)
      (sys_bytes prompt_bytes key_bytes : list byte)
      (sys_text prompt_text key_text : string) :
  List.length argv = 4%nat ->
  parse_int (Cli.argv_at argv 1) = Ok n ->
  dict_get (Cli.argv_at argv 2) (fs w) = Some sys_bytes ->
  decode_text sys_bytes = Ok sys_text ->
  dict_get (Cli.argv_at argv 3) (fs w) = Some prompt_bytes ->
  decode_text prompt_bytes = Ok prompt_text ->
  dict_get "api.key" (fs w) = Some key_bytes ->
  decode_text key_bytes = Ok key_text ->
  run (Cli.main argv) w =
  run (main_tail (main_args n sys_text prompt_text PNone (strip key_text)))
      (after_text_reads argv w).
Proof.
  intros Hlen Hn Hsys Hsys' Hprompt Hprompt' Hkey Hkey'.
  unfold run, Cli.main, Cli.read_inline_data. rewrite Hlen. cbn [Nat.ltb Nat.leb].
  unfold bind at 1. unfold lift at 1. rewrite Hn.
  unfold bind at 1. unfold read_text at 1, bind at 1, read_bytes at 1, bind at 1.
  cbn [emit fs log]. rewrite Hsys. unfold lift at 1. rewrite Hsys'.
  unfold bind at 1. unfold read_text at 1, bind at 1, read_bytes at 1, bind at 1.
  cbn [emit fs log]. rewrite Hprompt. unfold lift at 1. rewrite Hprompt'.
  unfold bind at 1. unfold ret at 1.
  unfold bind at 1. unfold read_text at 1, bind at 1, read_bytes at 1, bind at 1.
  cbn [emit fs log]. rewrite Hkey. unfold lift at 1. rewrite Hkey'.
  reflexivity.
Qed.

(** Either way: the files are read, then the call is made. *)
Lemma main_reaches_call {P : Platform} (argv : list string) (w : World) (n : Z)
      (sys_bytes prompt_bytes content key_bytes : list byte)
      (sys_text prompt_text key_text : string) :
  (4 <= List.length argv)%nat ->
  parse_int (Cli.argv_at argv 1) = Ok n ->
  dict_get (Cli.argv_at argv 2) (fs w) = Some sys_bytes ->
  decode_text sys_bytes = Ok sys_text ->
  dict_get (Cli.argv_at argv 3) (fs w) = Some prompt_bytes ->
  decode_text prompt_bytes = Ok prompt_text ->
  ((5 <= List.length argv)%nat ->
   dict_get (Cli.argv_at argv 4) (fs w) = Some content) ->
  dict_get "api.key" (fs w) = Some key_bytes ->
  decode_text key_bytes = Ok key_text ->
  run (Cli.main argv) w =
  run (main_tail (main_args n sys_text prompt_text
                    (main_inline_data argv content) (strip key_text)))
      (main_after_reads argv w).
Proof.
  intros Hlen Hn Hsys Hsys' Hprompt Hprompt' Hbin Hkey Hkey'.
  unfold main_inline_data, main_after_reads.
  destruct (5 <=? List.length argv)%nat eqn:E.
  - apply Nat.leb_le in E.
    apply (main_with_attachment argv w n sys_bytes prompt_bytes content key_bytes);
      solve [assumption | now apply Hbin].
  - apply Nat.leb_gt in E.
    apply (main_without_attachment argv w n sys_bytes prompt_bytes key_bytes);
      solve [assumption | lia].
Qed.

Lemma after_reads_posts (argv : list string) (w : World) :
  posts (trace (after_reads argv w)) = posts (trace w).
Proof.
  unfold after_reads, log. cbn [trace]. rewrite !posts_app. cbn.
  now rewrite !app_nil_r.
Qed.

(** C2.  When the command line names an attachment and the files it
    names can be read, the one request sent has exactly two parts, the
    text part and the inline-data part, and the [data] of the second
    decodes from base64 to the very bytes of the attachment. *)
Theorem C2_attachment_round_trip
        (P : Platform) (argv : list string) (w : World) (n : Z)
        (sys_bytes prompt_bytes content key_bytes : list byte)
        (sys_text prompt_text key_text : string) :
  (5 <= List.length argv)%nat ->
  parse_int (Cli.argv_at argv 1) = Ok n ->
  dict_get (Cli.argv_at argv 2) (fs w) = Some sys_bytes ->
  decode_text sys_bytes = Ok sys_text ->
  dict_get (Cli.argv_at argv 3) (fs w) = Some prompt_bytes ->
  decode_text prompt_bytes = Ok prompt_text ->
  dict_get (Cli.argv_at argv 4) (fs w) = Some content ->
  dict_get "api.key" (fs w) = Some key_bytes ->
  decode_text key_bytes = Ok key_text ->
  exists (req : Request) (parts : list pyval) (inline_part : pyval),
    posts (trace (snd (run (Cli.main argv) w))) = posts (trace w) ++ [req]
    /\ payload_parts (req_payload req) = Ok (PList parts)
    /\ List.length parts = 2%nat
    /\ payload_text (req_payload req) = Ok (PStr prompt_text)
    /\ py_item (PList parts) 1 = Ok inline_part
    /\ rbind (part_data inline_part) b64decode = Ok content.
Proof.
  intros Hlen Hn Hsys Hsys' Hprompt Hprompt' Hbin Hkey Hkey'.
  rewrite (main_with_attachment argv w n sys_bytes prompt_bytes content key_bytes
             sys_text prompt_text key_text) by assumption.
  set (a := main_args n sys_text prompt_text
              (attachment (Cli.argv_at argv 4) content) (strip key_text)).
  exists (cli_request a n).
  exists [PDict [("text", PStr prompt_text)];
          PDict [("inline_data", attachment (Cli.argv_at argv 4) content)]].
  exists (PDict [("inline_data", attachment (Cli.argv_at argv 4) content)]).
  split; [|split; [|split; [|split; [|split]]]].
  - rewrite (main_tail_posts a n) by reflexivity. now rewrite after_reads_posts.
  - cbn [req_payload cli_request]. rewrite cli_payload_parts, cli_parts_shape.
    reflexivity.
  - reflexivity.
  - cbn [req_payload cli_request]. apply cli_payload_text.
  - reflexivity.
  - cbn [part_data rbind py_getitem attachment dict_get String.eqb Ascii.eqb Bool.eqb].
    apply b64decode_b64encode.
Qed.

Lemma C2_attachment_round_trip_witness :
  exists (req : Request) (parts : list pyval) (inline_part : pyval),
    posts (trace (snd (run (Cli.main (platform := mock_platform (Ok rate_limited))
                              sample_argv) sample_world)))
    = posts (trace sample_world) ++ [req]
    /\ payload_parts (req_payload req) = Ok (PList parts)
    /\ List.length parts = 2%nat
    /\ payload_text (req_payload req) = Ok (PStr "Describe the image")
    /\ py_item (PList parts) 1 = Ok inline_part
    /\ rbind (part_data inline_part) b64decode = Ok ["M"%byte; "a"%byte; "n"%byte].
Proof.
  apply (C2_attachment_round_trip (mock_platform (Ok rate_limited)) sample_argv
           sample_world 256%Z
           (list_byte_of_string "Be brief") (list_byte_of_string "Describe the image")
           ["M"%byte; "a"%byte; "n"%byte] (list_byte_of_string " secret ")
           "Be brief" "Describe the image" " secret ");
    solve [reflexivity | vm_compute; lia].
Defined.

(** ** Failure of the transport *)

(** C5 (amended).  When the status of the answer is an error status
    (400 to 599), the command-line variant prints the status code and
    the raw body and then raises the HTTP error, the plain variant
    raises the HTTP error without printing, and in both the request was
    sent once and nothing is returned; in the script the error is not
    caught, so it ends [main] right after the report, before any file
    is written or the response printed. *)
Theorem C5_error_status_is_fatal :
  (forall (P : Platform) (a : Cli.Args) (n : Z) (w : World) (r : Response),
      Cli.gemini_max_tokens a = Some n ->
      http_post (cli_request a n) = Ok r ->
      (400 <= status_code r < 600)%Z ->
      run (Cli.call_gemini_api a) w
      = (Raise (HTTPError (status_code r)),
         log (EvPrint ("Error " ++ str_of_Z (status_code r) ++ ": " ++ text r))
           (log (EvPost (cli_request a n)) w))
      /\ run (main_tail a) w
         = (Raise (HTTPError (status_code r)),
            log (EvPrint ("Error " ++ str_of_Z (status_code r) ++ ": " ++ text r))
              (log (EvPost (cli_request a n)) w)))
  /\
  (forall (P : Platform) (argv : list string) (w : World) (n : Z)
          (sys_bytes prompt_bytes content key_bytes : list byte)
          (sys_text prompt_text key_text : string) (r : Response),
      (4 <= List.length argv)%nat ->
      parse_int (Cli.argv_at argv 1) = Ok n ->
      dict_get (Cli.argv_at argv 2) (fs w) = Some sys_bytes ->
      decode_text sys_bytes = Ok sys_text ->
      dict_get (Cli.argv_at argv 3) (fs w) = Some prompt_bytes ->
      decode_text prompt_bytes = Ok prompt_text ->
      ((5 <= List.length argv)%nat ->
       dict_get (Cli.argv_at argv 4) (fs w) = Some content) ->
      dict_get "api.key" (fs w) = Some key_bytes ->
      decode_text key_bytes = Ok key_text ->
      let a := main_args n sys_text prompt_text
                 (main_inline_data argv content) (strip key_text) in
      http_post (cli_request a n) = Ok r ->
      (400 <= status_code r < 600)%Z ->
      run (Cli.main argv) w
      = (Raise (HTTPError (status_code r)),
         log (EvPrint ("Error " ++ str_of_Z (status_code r) ++ ": " ++ text r))
           (log (EvPost (cli_request a n)) (main_after_reads argv w))))
  /\
  (forall (P : Platform) (a : Plain.Args) (w : World) (r : Response),
      http_post (plain_request a) = Ok r ->
      (400 <= status_code r < 600)%Z ->
      run (Plain.call_gemini_api a) w
      = (Raise (HTTPError (status_code r)), log (EvPost (plain_request a)) w)).
Proof.
  assert (Hcall : forall (P : Platform) (a : Cli.Args) (n : Z) (w : World) (r : Response),
             Cli.gemini_max_tokens a = Some n ->
             http_post (cli_request a n) = Ok r ->
             (400 <= status_code r < 600)%Z ->
             run (Cli.call_gemini_api a) w
             = (Raise (HTTPError (status_code r)),
                log (EvPrint ("Error " ++ str_of_Z (status_code r) ++ ": " ++ text r))
                  (log (EvPost (cli_request a n)) w))).
  { intros P a n w r Hn Hpost Hstatus.
    rewrite (cli_call_run a n w Hn), Hpost.
    now rewrite (raise_for_status_error r Hstatus). }
  split; [|split].
  - intros P a n w r Hn Hpost Hstatus.
    split; [now apply Hcall | now apply main_tail_raises, Hcall].
  - intros P argv w n sys_bytes prompt_bytes content key_bytes sys_text prompt_text
           key_text r Hlen Hn Hsys Hsys' Hprompt Hprompt' Hbin Hkey Hkey' a Hpost Hstatus.
    rewrite (main_reaches_call argv w n sys_bytes prompt_bytes content key_bytes
               sys_text prompt_text key_text) by assumption.
    apply main_tail_raises. now apply Hcall.
  - intros P a w r Hpost Hstatus.
    rewrite (plain_call_run a w), Hpost.
    now rewrite (raise_for_status_error r Hstatus).
Qed.

Lemma C5_error_status_is_fatal_witness :
  (400 <= status_code rate_limited < 600)%Z
  /\ run (Cli.main (platform := mock_platform (Ok rate_limited)) sample_argv) sample_world
     = (Raise (HTTPError 429),
        {| fs := sample_files;
           ticks := 0;
           trace :=
             [ EvOpenRead "system.txt"; EvOpenRead "prompt.txt"; EvOpenRead "image.png";
               EvOpenRead "api.key";
               EvPost (cli_request
                         (main_args 256 "Be brief" "Describe the image"
                            (PDict [("mime_type", PStr "image/png"); ("data", PStr "TWFu")])
                            "secret") 256);
               EvPrint "Error 429: rate limited" ] |}).
Proof.
  split; [cbn; lia|].
  apply (proj1 (proj2 C5_error_status_is_fatal) (mock_platform (Ok rate_limited))
           sample_argv sample_world 256%Z
           (list_byte_of_string "Be brief") (list_byte_of_string "Describe the image")
           ["M"%byte; "a"%byte; "n"%byte] (list_byte_of_string " secret ")
           "Be brief" "Describe the image" " secret " rate_limited);
    solve [reflexivity | cbn; lia].
Defined.

(** C5, counterexample.  A status outside 200 to 299 that is not an
    error status, such as 300, is taken as success: the command-line
    variant prints nothing and returns the parsed body.  And on status
    429 the plain variant raises without printing anything. *)
Lemma C5_counterexample :
  ~ (200 <= status_code multiple_choices < 300)%Z
  /\ run (Cli.call_gemini_api (platform := mock_platform (Ok multiple_choices))
            sample_cli_args) empty_world
     = (Ok (PDict []),
        {| fs := []; ticks := 0;
           trace := [EvPost (cli_request sample_cli_args 256)] |})
  /\ prints (trace (snd (run (Plain.call_gemini_api
                                (platform := mock_platform (Ok rate_limited))
                                (plain_minimal "k" "Hello")) empty_world))) = [].
Proof.
  split; [cbn; lia|]. split; reflexivity.
Qed.

(** ** Too few arguments *)

(** C8.  With fewer than three positional arguments the script prints
    the usage line and exits with status 1; it opens no file and sends
    no request, and leaves the files as they were. *)
Theorem C8_usage_exit (P : Platform) (argv : list string) (w : World) :
  (List.length (positional argv) < 3)%nat ->
  run (Cli.main argv) w = (Raise (SystemExit 1), log (EvPrint Cli.usage) w)
  /\ prints (trace (snd (run (Cli.main argv) w))) = prints (trace w) ++ [Cli.usage]
  /\ posts (trace (snd (run (Cli.main argv) w))) = posts (trace w)
  /\ opens (trace (snd (run (Cli.main argv) w))) = opens (trace w)
  /\ writes (trace (snd (run (Cli.main argv) w))) = writes (trace w)
  /\ fs (snd (run (Cli.main argv) w)) = fs w.
Proof.
  intros H.
  assert (Hlen : (List.length argv < 4)%nat).
  { destruct argv as [|script rest]; cbn in *; lia. }
  rewrite (main_usage argv w Hlen). cbn [snd log trace fs].
  rewrite prints_app, posts_app, opens_app, writes_app. cbn.
  rewrite !app_nil_r. repeat split.
Qed.

Lemma C8_usage_exit_witness :
  (List.length (positional ["generateResponse.py"; "256"; "system.txt"]) < 3)%nat
  /\ run (Cli.main (platform := mock_platform (Ok rate_limited))
            ["generateResponse.py"; "256"; "system.txt"]) sample_world
     = (Raise (SystemExit 1), log (EvPrint Cli.usage) sample_world).
Proof.
  split; [cbn; lia|].
  apply (C8_usage_exit (mock_platform (Ok rate_limited))
           ["generateResponse.py"; "256"; "system.txt"] sample_world).
  cbn; lia.
Defined.

(** ** Strings and dictionaries *)




Lemma dict_get_set_other {V} (k k' : string) (v : V) (d : list (string * V)) :
  k <> k' -> dict_get k (dict_set k' v d) = dict_get k d.
Proof.
  intros Hne. apply String.eqb_neq in Hne.
  induction d as [|[k2 v2] d IH]; cbn.
  - now rewrite Hne.
  - destruct (String.eqb k' k2) eqn:E; cbn.
    + apply String.eqb_eq in E. subst k2. now rewrite Hne.
    + now rewrite IH.
Qed.


(** ** The scan of the response *)

Lemma dict_has_of_get {V} (k : string) (d : list (string * V)) (v : V) :
  dict_get k d = Some v -> dict_has k d = true.
Proof. unfold dict_has. now intros ->. Qed.

Lemma dict_has_of_none {V} (k : string) (d : list (string * V)) :
  dict_get k d = None -> dict_has k d = false.
Proof. unfold dict_has. now intros ->. Qed.

(** A part with inline data that decodes is written to a fresh name. *)
Lemma extract_part_inline {P : Platform} (idx part_idx : nat) (pd inline : dict)
      (mime : string) (data : pyval) (content : list byte) (w : World) :
  dict_get "inline_data" pd = Some (PDict inline) ->
  py_get (PDict inline) "mime_type" (PStr "application/octet-stream") = Ok (PStr mime) ->
  dict_get "data" inline = Some data ->
  b64decode data = Ok content ->
  run (Cli.extract_part idx part_idx (PDict pd)) w
  = (Ok tt,
     after_write (Cli.output_filename (strftime_now (ticks w)) idx part_idx
                    (Cli.or_bin (guess_extension mime))) content w).
Proof.
  intros Hinline Hmime Hdata Hdecode.
  unfold run, Cli.extract_part, bind, lift, now_stamp.
  cbn [py_contains py_getitem]. rewrite (dict_has_of_get _ _ _ Hinline), Hinline.
  rewrite Hmime. cbn [Cli.py_guess_extension py_getitem]. rewrite Hdata, Hdecode.
  unfold write_bytes, print, emit, log, after_write. cbn [fs ticks trace].
  now rewrite <- app_assoc.
Qed.

(** A part without inline data is passed over. *)
Lemma extract_part_no_inline {P : Platform} (idx part_idx : nat) (pd : dict) (w : World) :
  dict_get "inline_data" pd = None ->
  run (Cli.extract_part idx part_idx (PDict pd)) w = (Ok tt, w).
Proof.
  intros H. unfold run, Cli.extract_part, bind, lift.
  cbn [py_contains]. now rewrite (dict_has_of_none _ _ H).
Qed.

(** A candidate without [content], or whose content has no [parts], is
    passed over. *)
Lemma extract_candidate_no_content {P : Platform} (idx : nat) (cd : dict) (w : World) :
  dict_get "content" cd = None ->
  run (Cli.extract_candidate idx (PDict cd)) w = (Ok tt, w).
Proof.
  intros H. unfold run, Cli.extract_candidate, bind, lift.
  cbn [py_contains]. now rewrite (dict_has_of_none _ _ H).
Qed.

Lemma extract_candidate_no_parts {P : Platform} (idx : nat) (cd content : dict)
      (w : World) :
  dict_get "content" cd = Some (PDict content) ->
  dict_get "parts" content = None ->
  run (Cli.extract_candidate idx (PDict cd)) w = (Ok tt, w).
Proof.
  intros Hc Hp. unfold run, Cli.extract_candidate, bind, lift.
  cbn [py_contains py_getitem].
  rewrite (dict_has_of_get _ _ _ Hc), Hc. cbn [py_contains].
  now rewrite (dict_has_of_none _ _ Hp).
Qed.

(** A response without [candidates] is passed over. *)
Lemma extract_artifacts_no_candidates {P : Platform} (rd : dict) (w : World) :
  dict_get "candidates" rd = None ->
  run (Cli.extract_artifacts (PDict rd)) w = (Ok tt, w).
Proof.
  intros H. unfold run, Cli.extract_artifacts, bind, lift.
  cbn [py_contains]. now rewrite (dict_has_of_none _ _ H).
Qed.

(** Inline data without [mime_type] is written under the extension of
    the generic binary type. *)
Lemma extract_part_no_mime_type {P : Platform} (idx part_idx : nat) (pd inline : dict)
      (data : pyval) (content : list byte) (w : World) :
  dict_get "inline_data" pd = Some (PDict inline) ->
  dict_get "mime_type" inline = None ->
  dict_get "data" inline = Some data ->
  b64decode data = Ok content ->
  run (Cli.extract_part idx part_idx (PDict pd)) w
  = (Ok tt,
     after_write (Cli.output_filename (strftime_now (ticks w)) idx part_idx
                    (Cli.or_bin (guess_extension "application/octet-stream")))
       content w).
Proof.
  intros Hinline Hmime Hdata Hdecode.
  apply (extract_part_inline idx part_idx pd inline _ data); try assumption.
  cbn [py_get]. now rewrite Hmime.
Qed.





(** C6.  The scan does not tolerate the absence of [data]: on a
    response whose part has inline data without that key it raises
    [KeyError], writing no file.  (The absence of [candidates],
    [content], [parts], [inline_data] or [mime_type] is tolerated, by
    [extract_artifacts_no_candidates], [extract_candidate_no_content],
    [extract_candidate_no_parts], [extract_part_no_inline] and
    [extract_part_no_mime_type].) *)
Theorem C6_missing_data_raises (P : Platform) (w : World) :
  fst (run (Cli.extract_artifacts response_without_data) w) = Raise (KeyError "data")
  /\ writes (trace (snd (run (Cli.extract_artifacts response_without_data) w)))
     = writes (trace w)
  /\ fs (snd (run (Cli.extract_artifacts response_without_data) w)) = fs w.
Proof. repeat split. Qed.



(** ** Worked runs *)

Example python_in_on_strings :
  py_contains "parts" (PStr "spare parts") = Ok true
  /\ py_contains "parts" (PStr "part") = Ok false
  /\ py_contains "parts" (PList [PStr "parts"]) = Ok true
  /\ is_ok (py_contains "parts" PNone) = false.
Proof. repeat split. Qed.

Example strip_key : strip (String "009"%char " secret key  ") = "secret key".
Proof. reflexivity. Qed.

(** A no-break space before the key and an ideographic space and a line
    feed after it go as well. *)
Example strip_key_unicode :
  strip (String (ascii_of_nat 194) (String (ascii_of_nat 160)
           ("secret" ++ String (ascii_of_nat 227) (String (ascii_of_nat 128)
              (String (ascii_of_nat 128) (String "010"%char EmptyString))))))
  = "secret".
Proof. reflexivity. Qed.

(** A successful run with an attachment and a picture in the answer:
    four files read, one request, one file written and announced, the
    response printed. *)
Example main_writes_picture :
  let answer := PDict (two_png_response "TWFu" "TQ==") in
  run (Cli.main (platform := mock_platform (Ok (response_of 200 "" (Ok answer))))
         sample_argv) sample_world
  = (Ok tt,
     {| fs := sample_files
              ++ [("output_20250101_120000_0_c0_p0.png", ["M"%byte; "a"%byte; "n"%byte]);
                  ("output_20250101_120000_1_c1_p0.png", ["M"%byte])];
        ticks := 2;
        trace :=
          [ EvOpenRead "system.txt"; EvOpenRead "prompt.txt"; EvOpenRead "image.png";
            EvOpenRead "api.key";
            EvPost (cli_request
                      (main_args 256 "Be brief" "Describe the image"
                         (PDict [("mime_type", PStr "image/png"); ("data", PStr "TWFu")])
                         "secret") 256);
            EvWrite "output_20250101_120000_0_c0_p0.png" ["M"%byte; "a"%byte; "n"%byte];
            EvPrint "Binary output written to: output_20250101_120000_0_c0_p0.png";
            EvWrite "output_20250101_120000_1_c1_p0.png" ["M"%byte];
            EvPrint "Binary output written to: output_20250101_120000_1_c1_p0.png";
            EvPrintJson answer ] |}).
Proof. reflexivity. Qed.

(** A missing prompt file ends the run before anything is sent. *)
Example main_missing_prompt :
  run (Cli.main (platform := mock_platform (Ok rate_limited))
         ["generateResponse.py"; "256"; "system.txt"; "nowhere.txt"]) sample_world
  = (Raise (FileNotFoundError "nowhere.txt"),
     {| fs := sample_files; ticks := 0;
        trace := [EvOpenRead "system.txt"; EvOpenRead "nowhere.txt"] |}).
Proof. reflexivity. Qed.

(** The posted payload of the sample call, in full. *)
Example sample_payload :
  Cli.payload_of sample_cli_args 256
  = [ ("contents",
       PList [PDict [("parts",
                      PList [PDict [("text", PStr "Describe the image")];
                             PDict [("inline_data", PDict sample_inline_data)]])]]);
      ("generationConfig",
       PDict [("maxOutputTokens", PInt 256); ("temperature", PFloat 1.0%float);
              ("topP", PFloat 0.95%float); ("topK", PInt 40);
              ("candidateCount", PInt 1)]);
      ("safetySettings", safety_settings "BLOCK_ONLY_HIGH");
      ("systemInstruction",
       PDict [("parts", PList [PDict [("text", PStr "Be brief")]])]) ].
Proof. reflexivity. Qed.

Example sample_url :
  Cli.url_of sample_cli_args
  = "https://generativelanguage.googleapis.com/v1beta/models/gemini-2.5-pro:generateContent?key=k".
Proof. reflexivity. Qed.

(** * Further properties *)

(** ** The call, on every answer *)

(** X1.  On an answer whose status is not an error status (anything
    outside 400 to 599, a redirect or an informational status
    included), both variants send the request once, print nothing, and
    end as [response.json()] ends: with the parsed body, or with its
    parse error. *)
Theorem X1_other_status_is_success :
  (forall (P : Platform) (a : Cli.Args) (n : Z) (w : World) (r : Response),
      Cli.gemini_max_tokens a = Some n ->
      http_post (cli_request a n) = Ok r ->
      ~ (400 <= status_code r < 600)%Z ->
      run (Cli.call_gemini_api a) w = (json r, log (EvPost (cli_request a n)) w))
  /\
  (forall (P : Platform) (a : Plain.Args) (w : World) (r : Response),
      http_post (plain_request a) = Ok r ->
      ~ (400 <= status_code r < 600)%Z ->
      run (Plain.call_gemini_api a) w = (json r, log (EvPost (plain_request a)) w)).
Proof.
  split.
  - intros P a n w r Hn Hpost Hstatus.
    rewrite (cli_call_run a n w Hn), Hpost.
    now rewrite (raise_for_status_pass r Hstatus).
  - intros P a w r Hpost Hstatus.
    rewrite (plain_call_run a w), Hpost.
    now rewrite (raise_for_status_pass r Hstatus).
Qed.

Lemma X1_other_status_is_success_witness :
  ~ (400 <= status_code multiple_choices < 600)%Z
  /\ run (Cli.call_gemini_api (platform := mock_platform (Ok multiple_choices))
            sample_cli_args) empty_world
     = (Ok (PDict []), log (EvPost (cli_request sample_cli_args 256)) empty_world).
Proof.
  split; [cbn; lia|].
  apply (proj1 X1_other_status_is_success (mock_platform (Ok multiple_choices))
           sample_cli_args 256%Z empty_world multiple_choices);
    [reflexivity | reflexivity | cbn; lia].
Defined.

(** X2.  When the transport itself fails, both variants end with the
    transport's error as it is: the request was attempted once, nothing
    is printed, and no answer is examined. *)
Theorem X2_transport_error_propagates :
  (forall (P : Platform) (a : Cli.Args) (n : Z) (w : World) (e : exn),
      Cli.gemini_max_tokens a = Some n ->
      http_post (cli_request a n) = Raise e ->
      run (Cli.call_gemini_api a) w = (Raise e, log (EvPost (cli_request a n)) w))
  /\
  (forall (P : Platform) (a : Plain.Args) (w : World) (e : exn),
      http_post (plain_request a) = Raise e ->
      run (Plain.call_gemini_api a) w = (Raise e, log (EvPost (plain_request a)) w)).
Proof.
  split.
  - intros P a n w e Hn Hpost. now rewrite (cli_call_run a n w Hn), Hpost.
  - intros P a w e Hpost. now rewrite (plain_call_run a w), Hpost.
Qed.

Lemma X2_transport_error_propagates_witness :
  run (Cli.call_gemini_api (platform := mock_platform (Raise ConnectionError))
         sample_cli_args) empty_world
  = (Raise ConnectionError, log (EvPost (cli_request sample_cli_args 256)) empty_world).
Proof.
  apply (proj1 X2_transport_error_propagates (mock_platform (Raise ConnectionError))
           sample_cli_args 256%Z empty_world ConnectionError); reflexivity.
Defined.

(** ** The two variants side by side *)

(** X3.  A call of the command-line variant without inline data and on
    the default API version sends the very request the plain variant
    sends for the same values, and the two runs are the same, result
    and world, when the transport fails and when the answer has no
    error status; on an error status the results are the same and the
    world of the command-line variant is that of the plain variant with
    the one line [Error <status>: <body>] printed after it, and nothing
    else. *)
Theorem X3_variants_agree (P : Platform) (a : Cli.Args) (n : Z) (w : World) :
  Cli.gemini_max_tokens a = Some n ->
  truthy (Cli.gemini_inline_data a) = false ->
  default "v1beta" (Cli.gemini_api_version a) = "v1beta" ->
  cli_request a n = plain_request (plain_of_cli a)
  /\ (forall e, http_post (cli_request a n) = Raise e ->
                run (Cli.call_gemini_api a) w
                = run (Plain.call_gemini_api (plain_of_cli a)) w)
  /\ (forall r, http_post (cli_request a n) = Ok r ->
                ~ (400 <= status_code r < 600)%Z ->
                run (Cli.call_gemini_api a) w
                = run (Plain.call_gemini_api (plain_of_cli a)) w)
  /\ (forall r, http_post (cli_request a n) = Ok r ->
                (400 <= status_code r < 600)%Z ->
                run (Cli.call_gemini_api a) w
                = (fst (run (Plain.call_gemini_api (plain_of_cli a)) w),
                   log (EvPrint ("Error " ++ str_of_Z (status_code r) ++ ": " ++ text r))
                     (snd (run (Plain.call_gemini_api (plain_of_cli a)) w)))).
Proof.
  intros Hn Hinline Hversion.
  assert (E : cli_request a n = plain_request (plain_of_cli a)).
  { unfold cli_request, plain_request. f_equal.
    - unfold Cli.url_of, Plain.url_of. rewrite Hversion. reflexivity.
    - f_equal. rewrite cli_payload_shape, plain_payload_shape, cli_parts_shape.
      rewrite Hinline. cbn [plain_of_cli Plain.gemini_user_prompt
        Plain.gemini_max_tokens Plain.gemini_temperature Plain.gemini_top_p
        Plain.gemini_top_k Plain.gemini_candidate_count Plain.gemini_safety_threshold
        Plain.gemini_system_instruction].
      rewrite Hn. reflexivity. }
  split; [exact E|].
  rewrite (cli_call_run a n w Hn), (plain_call_run (plain_of_cli a) w), <- E.
  split; [|split].
  - intros e He. now rewrite He.
  - intros r Hr Hstatus. rewrite Hr. now rewrite (raise_for_status_pass r Hstatus).
  - intros r Hr Hstatus. rewrite Hr. now rewrite (raise_for_status_error r Hstatus).
Qed.

Lemma X3_variants_agree_witness :
  Cli.gemini_max_tokens cli_text_call = Some 64%Z
  /\ truthy (Cli.gemini_inline_data cli_text_call) = false
  /\ default "v1beta" (Cli.gemini_api_version cli_text_call) = "v1beta"
  /\ http_post (Platform := mock_platform (Ok rate_limited)) (cli_request cli_text_call 64)
     = Ok rate_limited
  /\ (400 <= status_code rate_limited < 600)%Z
  /\ run (Cli.call_gemini_api (platform := mock_platform (Ok rate_limited)) cli_text_call)
         sample_world
     = (Raise (HTTPError 429),
        log (EvPrint "Error 429: rate limited")
          (snd (run (Plain.call_gemini_api (platform := mock_platform (Ok rate_limited))
                       (plain_of_cli cli_text_call)) sample_world))).
Proof.
  do 4 (split; [reflexivity|]). split; [cbn; lia|].
  apply (proj2 (proj2 (proj2
           (X3_variants_agree (mock_platform (Ok rate_limited)) cli_text_call
              64%Z sample_world eq_refl eq_refl eq_refl))) rate_limited);
    [reflexivity | cbn; lia].
Defined.

(** ** What the scan does to the world *)

Section Wrote.

Context {P : Platform}.

Lemma wrote_refl (w : World) : wrote [] w w.
Proof. unfold wrote. cbn. now rewrite app_nil_r. Qed.

Lemma wrote_tick (w : World) : wrote [] w (tick w).
Proof. unfold wrote. cbn. rewrite app_nil_r. auto. Qed.

Lemma wrote_trans (r1 r2 : list written) (w w1 w2 : World) :
  wrote r1 w w1 -> wrote r2 w1 w2 -> wrote (r1 ++ r2) w w2.
Proof.
  intros (F1 & T1 & K1) (F2 & T2 & K2). unfold wrote. repeat split.
  - rewrite F2, F1. unfold wr_fs. now rewrite fold_left_app.
  - rewrite T2, T1, flat_map_app. now rewrite app_assoc.
  - lia.
Qed.

Lemma wrote_after_write (i p : nat) (ext : option string) (content : list byte)
      (w : World) :
  wrote [ {| wr_tick := ticks w; wr_idx := i; wr_part := p; wr_ext := ext;
             wr_content := content |} ] w
        (after_write (Cli.output_filename (strftime_now (ticks w)) i p (Cli.or_bin ext))
           content w).
Proof. unfold wrote, after_write. cbn. auto. Qed.

(** One part: nothing happens, or the clock is read and the part
    fails, or the clock is read and one file is written. *)
Lemma extract_part_wrote (i p : nat) (part : pyval) (w : World) :
  exists recs,
    wrote recs w (snd (run (Cli.extract_part i p part) w))
    /\ Forall (fun r => wr_idx r = i /\ wr_part r = p) recs
    /\ Forall wr_guessed recs
    /\ (List.length recs <= 1)%nat.
Proof.
  unfold run, Cli.extract_part, bind, lift, now_stamp.
  destruct (py_contains "inline_data" part) as [[|]|e];
    try (exists []; cbn [snd];
         split; [apply wrote_refl | split; [constructor | split; [constructor | cbn; lia]]]).
  fold (tick w).
  destruct (py_getitem part "inline_data") as [inline|e];
    [|exists []; cbn [snd];
      split; [apply wrote_tick | split; [constructor | split; [constructor | cbn; lia]]]].
  destruct (py_get inline "mime_type" (PStr "application/octet-stream")) as [mime|e];
    [|exists []; cbn [snd];
      split; [apply wrote_tick | split; [constructor | split; [constructor | cbn; lia]]]].
  destruct (Cli.py_guess_extension mime) as [guessed|e] eqn:Hguess;
    [|exists []; cbn [snd];
      split; [apply wrote_tick | split; [constructor | split; [constructor | cbn; lia]]]].
  destruct (py_getitem inline "data") as [data|e];
    [|exists []; cbn [snd];
      split; [apply wrote_tick | split; [constructor | split; [constructor | cbn; lia]]]].
  destruct (b64decode data) as [content|e];
    [|exists []; cbn [snd];
      split; [apply wrote_tick | split; [constructor | split; [constructor | cbn; lia]]]].
  exists [ {| wr_tick := ticks w; wr_idx := i; wr_part := p; wr_ext := guessed;
              wr_content := content |} ].
  split; [|split; [repeat constructor | split; [|cbn; lia]]].
  2:{ repeat constructor. unfold wr_guessed. cbn [wr_ext].
      destruct mime; try discriminate. exists s. now injection Hguess as <-. }
  pose proof (wrote_after_write i p guessed content w) as H.
  unfold wrote, after_write, write_bytes, print, emit, log, tick in *.
  cbn [snd fs trace ticks] in *. destruct H as (F & T & K).
  rewrite <- app_assoc. cbn [app]. auto.
Qed.

(** The parts of one candidate, from part index [p] on. *)
Lemma for_parts_wrote (i : nat) (items : list pyval) :
  forall (p : nat) (w : World),
  exists recs,
    wrote recs w (snd (run (for_enumerate (Cli.extract_part i) p items) w))
    /\ Forall (fun r => wr_idx r = i /\ (p <= wr_part r)%nat) recs
    /\ Forall wr_guessed recs
    /\ NoDup (map wr_pos recs).
Proof.
  induction items as [|x rest IH]; intros p w.
  - exists []. cbn. split; [apply wrote_refl | repeat split; constructor].
  - destruct (extract_part_wrote i p x w) as (r1 & W1 & A1 & G1 & L1).
    unfold run in *. cbn [for_enumerate]. unfold bind.
    destruct (Cli.extract_part i p x w) as [[[]|e] w1]; cbn [snd] in *.
    + destruct (IH (S p) w1) as (r2 & W2 & A2 & G2 & N2).
      exists (r1 ++ r2). split; [now apply (wrote_trans r1 r2 w w1)|].
      split; [|split; [apply Forall_app; now split|]].
      * apply Forall_app. split.
        -- eapply Forall_impl; [|exact A1]. cbn. intros r [-> ->]. auto.
        -- eapply Forall_impl; [|exact A2]. cbn. intros r [-> H]. split; [reflexivity|lia].
      * rewrite map_app. apply NoDup_app; [|exact N2|].
        -- destruct r1 as [|a [|b r1]]; cbn in L1 |- *;
             [constructor | repeat constructor; intros [] | lia].
        -- intros pos H1 H2. apply in_map_iff in H1. destruct H1 as (a & <- & Ha).
           apply in_map_iff in H2. destruct H2 as (b & Hb & Hin).
           rewrite Forall_forall in A1, A2.
           destruct (A1 a Ha) as [_ Hap]. destruct (A2 b Hin) as [_ Hbp].
           unfold wr_pos in Hb. injection Hb as _ Hb. lia.
    + exists r1. split; [exact W1|]. split; [|split; [exact G1|]].
      * eapply Forall_impl; [|exact A1]. cbn. intros r [-> ->]. auto.
      * destruct r1 as [|a [|b r1]]; cbn in L1 |- *;
          [constructor | repeat constructor; intros [] | lia].
Qed.

(** One candidate. *)
Lemma extract_candidate_wrote (i : nat) (candidate : pyval) (w : World) :
  exists recs,
    wrote recs w (snd (run (Cli.extract_candidate i candidate) w))
    /\ Forall (fun r => wr_idx r = i) recs
    /\ Forall wr_guessed recs
    /\ NoDup (map wr_pos recs).
Proof.
  assert (Hnone : forall r : result unit,
             exists recs, wrote recs w (snd (r, w))
                          /\ Forall (fun r => wr_idx r = i) recs
                          /\ Forall wr_guessed recs
                          /\ NoDup (map wr_pos recs)).
  { intros r. exists []. split; [apply wrote_refl | repeat split; constructor]. }
  unfold run, Cli.extract_candidate, bind, lift, ret.
  destruct (py_contains "content" candidate) as [[|]|e]; try apply Hnone.
  destruct (py_getitem candidate "content") as [content|e]; try apply Hnone.
  destruct (py_contains "parts" content) as [[|]|e]; try apply Hnone.
  destruct (py_getitem content "parts") as [parts|e]; try apply Hnone.
  destruct (py_iter parts) as [items|e]; try apply Hnone.
  destruct (for_parts_wrote i items 0 w) as (recs & W & A & G & N).
  exists recs. split; [exact W|]. split; [|split; [exact G | exact N]].
  eapply Forall_impl; [|exact A]. cbn. now intros r [H _].
Qed.

(** The candidates, from candidate index [i] on. *)
Lemma for_candidates_wrote (items : list pyval) :
  forall (i : nat) (w : World),
  exists recs,
    wrote recs w (snd (run (for_enumerate Cli.extract_candidate i items) w))
    /\ Forall (fun r => (i <= wr_idx r)%nat) recs
    /\ Forall wr_guessed recs
    /\ NoDup (map wr_pos recs).
Proof.
  induction items as [|x rest IH]; intros i w.
  - exists []. cbn. split; [apply wrote_refl | repeat split; constructor].
  - destruct (extract_candidate_wrote i x w) as (r1 & W1 & A1 & G1 & N1).
    unfold run in *. cbn [for_enumerate]. unfold bind.
    destruct (Cli.extract_candidate i x w) as [[[]|e] w1]; cbn [snd] in *.
    + destruct (IH (S i) w1) as (r2 & W2 & A2 & G2 & N2).
      exists (r1 ++ r2). split; [now apply (wrote_trans r1 r2 w w1)|].
      split; [|split; [apply Forall_app; now split|]].
      * apply Forall_app. split.
        -- eapply Forall_impl; [|exact A1]. cbn. intros r ->. lia.
        -- eapply Forall_impl; [|exact A2]. cbn. intros r H. lia.
      * rewrite map_app. apply NoDup_app; [exact N1 | exact N2 |].
        intros pos H1 H2. apply in_map_iff in H1. destruct H1 as (a & <- & Ha).
        apply in_map_iff in H2. destruct H2 as (b & Hb & Hin).
        rewrite Forall_forall in A1, A2.
        pose proof (A1 a Ha) as Hai. pose proof (A2 b Hin) as Hbi.
        unfold wr_pos in Hb. injection Hb as Hb _. lia.
    + exists r1. split; [exact W1|]. split; [|split; [exact G1 | exact N1]].
      eapply Forall_impl; [|exact A1]. cbn. intros r ->. lia.
Qed.

(** The whole scan, whatever the response and however it ends. *)
Lemma extract_artifacts_wrote (response : pyval) (w : World) :
  exists recs,
    wrote recs w (snd (run (Cli.extract_artifacts response) w))
    /\ Forall wr_guessed recs
    /\ NoDup (map wr_pos recs).
Proof.
  assert (Hnone : forall r : result unit,
             exists recs, wrote recs w (snd (r, w))
                          /\ Forall wr_guessed recs /\ NoDup (map wr_pos recs)).
  { intros r. exists []. split; [apply wrote_refl | split; constructor]. }
  unfold run, Cli.extract_artifacts, bind, lift, ret.
  destruct (py_contains "candidates" response) as [[|]|e]; try apply Hnone.
  destruct (py_getitem response "candidates") as [candidates|e]; try apply Hnone.
  destruct (py_iter candidates) as [items|e]; try apply Hnone.
  destruct (for_candidates_wrote items 0 w) as (recs & W & _ & G & N).
  exists recs. split; [exact W | split; assumption].
Qed.

End Wrote.

Lemma writes_wr_events {P : Platform} (recs : list written) :
  writes (flat_map wr_events recs) = map (fun r => (wr_name r, wr_content r)) recs.
Proof.
  induction recs as [|r recs IH]; [reflexivity|].
  change (flat_map wr_events (r :: recs)) with (wr_events r ++ flat_map wr_events recs).
  rewrite writes_app, IH. reflexivity.
Qed.

Lemma prints_wr_events {P : Platform} (recs : list written) :
  prints (flat_map wr_events recs)
  = map (fun r => ("Binary output written to: " ++ wr_name r)%string) recs.
Proof.
  induction recs as [|r recs IH]; [reflexivity|].
  change (flat_map wr_events (r :: recs)) with (wr_events r ++ flat_map wr_events recs).
  rewrite prints_app, IH. reflexivity.
Qed.

Lemma posts_wr_events {P : Platform} (recs : list written) :
  posts (flat_map wr_events recs) = [].
Proof.
  induction recs as [|r recs IH]; [reflexivity|].
  change (flat_map wr_events (r :: recs)) with (wr_events r ++ flat_map wr_events recs).
  rewrite posts_app, IH. reflexivity.
Qed.

Lemma opens_wr_events {P : Platform} (recs : list written) :
  opens (flat_map wr_events recs) = [].
Proof.
  induction recs as [|r recs IH]; [reflexivity|].
  change (flat_map wr_events (r :: recs)) with (wr_events r ++ flat_map wr_events recs).
  rewrite opens_app, IH. reflexivity.
Qed.

(** X4.  Whatever the response and however the scan ends, what it adds
    to the trace is, for each file in turn, the write of the file
    followed at once by the line announcing it by name, and nothing
    else: the trace afterwards is the trace before with these pairs
    appended, so nothing else is printed, no request is sent and no
    file is opened for reading. *)
Theorem X4_scan_writes_and_announces (P : Platform) (response : pyval) (w : World) :
  let w' := snd (run (Cli.extract_artifacts response) w) in
  exists files : list (string * list byte),
    trace w'
    = trace w
      ++ flat_map (fun f => [EvWrite (fst f) (snd f);
                             EvPrint ("Binary output written to: " ++ fst f)]) files
    /\ writes (trace w') = writes (trace w) ++ files
    /\ prints (trace w')
       = prints (trace w)
         ++ map (fun f => ("Binary output written to: " ++ fst f)%string) files
    /\ posts (trace w') = posts (trace w)
    /\ opens (trace w') = opens (trace w).
Proof.
  intros w'. destruct (extract_artifacts_wrote response w) as (recs & (F & T & K) & _ & _).
  fold w' in F, T, K.
  exists (map (fun r => (wr_name r, wr_content r)) recs).
  rewrite T, writes_app, prints_app, posts_app, opens_app.
  rewrite writes_wr_events, prints_wr_events, posts_wr_events, opens_wr_events.
  rewrite !app_nil_r, map_map. cbn [fst].
  split; [|repeat split]. f_equal.
  clear. induction recs as [|r recs IH]; [reflexivity|].
  cbn [flat_map map fst snd]. rewrite <- IH. reflexivity.
Qed.

(** ** Files the scan leaves alone *)

Lemma wr_name_prefix {P : Platform} (r : written) :
  starts_with "output_" (wr_name r) = true.
Proof. reflexivity. Qed.

Lemma dict_get_wr_fs {P : Platform} (path : string) (recs : list written) :
  starts_with "output_" path = false ->
  forall files, dict_get path (wr_fs recs files) = dict_get path files.
Proof.
  intros Hpath. induction recs as [|r recs IH]; intros files; [reflexivity|].
  change (wr_fs (r :: recs) files)
    with (wr_fs recs (dict_set (wr_name r) (wr_content r) files)).
  rewrite IH. apply dict_get_set_other. intros E.
  rewrite E, wr_name_prefix in Hpath. discriminate.
Qed.

(** X5.  The scan touches no file whose name does not start with
    [output_]: whatever the response, such a file is there afterwards
    exactly if it was there before, with the same content. *)
Theorem X5_scan_spares_other_files
        (P : Platform) (response : pyval) (w : World) (path : string) :
  starts_with "output_" path = false ->
  dict_get path (fs (snd (run (Cli.extract_artifacts response) w)))
  = dict_get path (fs w).
Proof.
  intros Hpath.
  destruct (extract_artifacts_wrote response w) as (recs & (F & _ & _) & _ & _).
  rewrite F. now apply dict_get_wr_fs.
Qed.

Lemma X5_scan_spares_other_files_witness :
  starts_with "output_" "api.key" = false
  /\ dict_get "api.key"
       (fs (snd (run (Cli.extract_artifacts (platform := mock_platform (Ok rate_limited))
                        (PDict (two_png_response "TWFu" "TQ=="))) sample_world)))
     = dict_get "api.key" (fs sample_world).
Proof.
  split; [reflexivity|].
  apply (X5_scan_spares_other_files (mock_platform (Ok rate_limited))
           (PDict (two_png_response "TWFu" "TQ==")) sample_world "api.key").
  reflexivity.
Defined.

(** ** Output names never collide within one scan *)

Lemma all_digits_string_of_uint (d : Decimal.uint) :
  all_digits (NilEmpty.string_of_uint d) = true.
Proof. induction d; cbn; auto. Qed.

Lemma all_digits_str_of_nat (n : nat) : all_digits (str_of_nat n) = true.
Proof.
  unfold str_of_nat, NilZero.string_of_uint.
  destruct (Nat.to_uint n); try reflexivity; apply all_digits_string_of_uint.
Qed.

Lemma to_uint_not_nil (n : nat) : Nat.to_uint n <> Decimal.Nil.
Proof.
  intros H. destruct n as [|n]; [discriminate|].
  pose proof (Unsigned.of_to (S n)) as E. rewrite H in E. discriminate.
Qed.

Lemma str_of_nat_inj (n m : nat) : str_of_nat n = str_of_nat m -> n = m.
Proof.
  unfold str_of_nat. intros H.
  apply (f_equal NilZero.uint_of_string) in H.
  rewrite !NilZero.usu in H by apply to_uint_not_nil.
  injection H as H. now apply Unsigned.to_uint_inj.
Qed.

(** Two strings that start with digits and go on with something else
    split at the same place. *)
Lemma digits_split (a b : string) (c c' : ascii) (x y : string) :
  all_digits a = true -> all_digits b = true ->
  is_digit c = false -> is_digit c' = false ->
  (a ++ String c x)%string = (b ++ String c' y)%string ->
  a = b /\ String c x = String c' y.
Proof.
  revert b. induction a as [|d a IH]; intros [|d' b] Ha Hb Hc Hc' E; cbn in *.
  - now split.
  - injection E as -> _. apply andb_prop in Hb. destruct Hb as [Hd _]. congruence.
  - injection E as -> _. apply andb_prop in Ha. destruct Ha as [Hd _]. congruence.
  - injection E as -> E. apply andb_prop in Ha, Hb.
    destruct Ha as [_ Ha], Hb as [_ Hb].
    destruct (IH b Ha Hb Hc Hc' E) as [-> H]. now split.
Qed.

Lemma append_same_length_prefix (s1 s2 u v : string) :
  String.length s1 = String.length s2 ->
  (s1 ++ u)%string = (s2 ++ v)%string -> s1 = s2 /\ u = v.
Proof.
  revert s2. induction s1 as [|c s1 IH]; intros [|d s2] Hlen E; cbn in *;
    try discriminate.
  - now split.
  - injection E as -> E. injection Hlen as Hlen.
    destruct (IH s2 Hlen E) as [-> ->]. now split.
Qed.

(** Equal names come from the same place in the response. *)
Lemma output_filename_tells_position
      (t0 t1 : string) (i j p q : nat) (e e' : string) :
  String.length t0 = String.length t1 ->
  dot_led e -> dot_led e' ->
  Cli.output_filename t0 i p e = Cli.output_filename t1 j q e' ->
  i = j /\ p = q.
Proof.
  intros Hlen [r ->] [r' ->] E. unfold Cli.output_filename in E.
  cbn [String.append] in E. injection E as E.
  apply append_same_length_prefix in E; [|exact Hlen]. destruct E as [_ E].
  cbn [String.append] in E. injection E as E.
  apply digits_split in E; try reflexivity; try apply all_digits_str_of_nat.
  destruct E as [Ei E]. injection E as E.
  apply digits_split in E; try reflexivity; try apply all_digits_str_of_nat.
  destruct E as [Ep _].
  split; now apply str_of_nat_inj.
Qed.

(** X6.  The name of an output file tells its place in the response:
    when the two timestamps have one width and the two extensions start
    with a dot, parts at different places (another candidate index, or
    another part index) get different names, even when the clock shows
    the same time for both and whatever the two extensions are. *)
Theorem X6_output_names_differ_by_position
        (t0 t1 : string) (i j p q : nat) (e e' : string) :
  String.length t0 = String.length t1 ->
  dot_led e -> dot_led e' ->
  i <> j \/ p <> q ->
  Cli.output_filename t0 i p e <> Cli.output_filename t1 j q e'.
Proof.
  intros Hlen He He' Hdiff E.
  destruct (output_filename_tells_position t0 t1 i j p q e e' Hlen He He' E) as [Hi Hp].
  destruct Hdiff as [H|H]; contradiction.
Qed.

Lemma X6_output_names_differ_by_position_witness :
  String.length "20250101_120000_000001" = String.length "20250101_120000_000001"
  /\ dot_led ".png" /\ dot_led ".jpg"
  /\ Cli.output_filename "20250101_120000_000001" 1 10 ".png"
     <> Cli.output_filename "20250101_120000_000001" 11 0 ".jpg".
Proof.
  split; [reflexivity|]. split; [eexists; reflexivity|]. split; [eexists; reflexivity|].
  apply (X6_output_names_differ_by_position "20250101_120000_000001"
           "20250101_120000_000001" 1 11 10 0 ".png" ".jpg");
    [reflexivity | eexists; reflexivity | eexists; reflexivity | left; discriminate].
Defined.

Lemma or_bin_dot_led {P : Platform} (r : written) :
  dotted_extensions P -> wr_guessed r -> dot_led (Cli.or_bin (wr_ext r)).
Proof.
  intros Hdot [mime Hg]. unfold Cli.or_bin.
  destruct (wr_ext r) as [e|] eqn:E; [|eexists; reflexivity].
  destruct (String.eqb e "") eqn:Ee; [eexists; reflexivity|].
  symmetry in Hg. destruct (Hdot mime e Hg) as [->|H]; [discriminate | exact H].
Qed.

Lemma wr_name_tells_position {P : Platform} (a b : written) :
  fixed_width_clock P -> dotted_extensions P ->
  wr_guessed a -> wr_guessed b ->
  wr_name a = wr_name b -> wr_pos a = wr_pos b.
Proof.
  intros Hclock Hdot Ga Gb E. unfold wr_name in E.
  apply output_filename_tells_position in E.
  - unfold wr_pos. destruct E as [-> ->]. reflexivity.
  - apply Hclock.
  - now apply or_bin_dot_led.
  - now apply or_bin_dot_led.
Qed.

Lemma NoDup_map_through {A B C} (f : A -> B) (g : A -> C) (l : list A) :
  (forall a b, In a l -> In b l -> g a = g b -> f a = f b) ->
  NoDup (map f l) -> NoDup (map g l).
Proof.
  induction l as [|a l IH]; intros Hinj Hnd; cbn; [constructor|].
  cbn in Hnd. apply NoDup_cons_iff in Hnd. destruct Hnd as [Hnotin Hnd].
  constructor.
  - intros Hin. apply in_map_iff in Hin. destruct Hin as (b & Hb & Hbin).
    apply Hnotin. apply in_map_iff. exists b. split; [|exact Hbin].
    apply Hinj; [now right | now left | exact Hb].
  - apply IH; [|exact Hnd]. intros x y Hx Hy. apply Hinj; now right.
Qed.

(** X7.  On a platform whose timestamps have one width and whose
    extensions start with a dot, the files one scan writes have
    pairwise different names, whatever the response and whatever the
    clock shows: no output of a scan overwrites another. *)
Theorem X7_scan_names_are_distinct (P : Platform) (response : pyval) (w : World) :
  fixed_width_clock P ->
  dotted_extensions P ->
  exists files : list (string * list byte),
    writes (trace (snd (run (Cli.extract_artifacts response) w)))
    = writes (trace w) ++ files
    /\ NoDup (map fst files).
Proof.
  intros Hclock Hdot.
  destruct (extract_artifacts_wrote response w) as (recs & (_ & T & _) & G & N).
  exists (map (fun r => (wr_name r, wr_content r)) recs). split.
  - now rewrite T, writes_app, writes_wr_events.
  - rewrite map_map. cbn [fst].
    apply (NoDup_map_through wr_pos wr_name recs); [|exact N].
    intros a b Ha Hb. rewrite Forall_forall in G.
    apply wr_name_tells_position; auto.
Qed.

Lemma X7_scan_names_are_distinct_witness :
  fixed_width_clock (frozen_platform (Ok rate_limited))
  /\ dotted_extensions (frozen_platform (Ok rate_limited))
  /\ exists files : list (string * list byte),
       writes (trace (snd (run (Cli.extract_artifacts
                                  (platform := frozen_platform (Ok rate_limited))
                                  (PDict (two_png_response "TWFu" "TQ=="))) empty_world)))
       = writes (trace empty_world) ++ files
       /\ NoDup (map fst files).
Proof.
  assert (Hclock : fixed_width_clock (frozen_platform (Ok rate_limited))).
  { intros n m. reflexivity. }
  assert (Hdot : dotted_extensions (frozen_platform (Ok rate_limited))).
  { intros mime e H. cbn in H. destruct (String.eqb mime "image/png"); [|discriminate].
    injection H as <-. right. eexists. reflexivity. }
  split; [exact Hclock|]. split; [exact Hdot|].
  exact (X7_scan_names_are_distinct (frozen_platform (Ok rate_limited))
           (PDict (two_png_response "TWFu" "TQ==")) empty_world Hclock Hdot).
Defined.

(** ** The script, path by path *)

Lemma log_open_opened (path : string) (paths : list string) (w : World) :
  log (EvOpenRead path) (opened paths w) = opened (paths ++ [path]) w.
Proof.
  unfold log, opened. cbn [fs ticks trace]. f_equal.
  now rewrite map_app, app_assoc.
Qed.

Lemma opened_nil (w : World) : w = opened [] w.
Proof. destruct w. unfold opened. cbn. now rewrite app_nil_r. Qed.

Lemma main_after_reads_opened (argv : list string) (w : World) :
  exists paths, main_after_reads argv w = opened paths w.
Proof.
  unfold main_after_reads, after_reads, after_text_reads.
  destruct (5 <=? List.length argv)%nat;
    [exists [Cli.argv_at argv 2; Cli.argv_at argv 3; Cli.argv_at argv 4; "api.key"]
    |exists [Cli.argv_at argv 2; Cli.argv_at argv 3; "api.key"]];
    unfold opened, log; cbn [fs ticks trace map]; now rewrite <- !app_assoc.
Qed.

(** Before the call there are three ways to go: the usage exit, an
    error while the inputs are read, which leaves only opened files
    behind, or the call itself. *)
Lemma main_cases {P : Platform} (argv : list string) (w : World) :
  ((List.length argv < 4)%nat
   /\ run (Cli.main argv) w = (Raise (SystemExit 1), log (EvPrint Cli.usage) w))
  \/ (exists e paths, run (Cli.main argv) w = (Raise e, opened paths w))
  \/ (inputs_readable argv w
      /\ exists a n paths,
           Cli.gemini_max_tokens a = Some n
           /\ run (Cli.main argv) w = run (main_tail a) (opened paths w)).
Proof.
  destruct (List.length argv <? 4)%nat eqn:H4.
  { left. apply Nat.ltb_lt in H4. split; [exact H4 | now apply main_usage]. }
  right. apply Nat.ltb_ge in H4.
  assert (Hfail : forall e paths,
             run (Cli.main argv) w = (Raise e, opened paths w) ->
             (exists e paths, run (Cli.main argv) w = (Raise e, opened paths w))
             \/ (inputs_readable argv w
                 /\ exists a n paths,
                      Cli.gemini_max_tokens a = Some n
                      /\ run (Cli.main argv) w = run (main_tail a) (opened paths w))).
  { intros e paths H. left. now exists e, paths. }
  assert (H4' : (List.length argv <? 4)%nat = false) by (apply Nat.ltb_ge; exact H4).
  destruct (parse_int (Cli.argv_at argv 1)) as [n|e] eqn:Hn.
  2:{ apply (Hfail e []). unfold run, Cli.main. rewrite H4'.
      unfold bind at 1, lift at 1. rewrite Hn. f_equal. apply opened_nil. }
  destruct (dict_get (Cli.argv_at argv 2) (fs w)) as [sys_bytes|] eqn:Hsys.
  2:{ apply (Hfail (FileNotFoundError (Cli.argv_at argv 2)) [Cli.argv_at argv 2]).
      unfold run, Cli.main. rewrite H4'.
      unfold bind at 1, lift at 1. rewrite Hn.
      unfold bind at 1, read_text at 1, bind at 1, read_bytes at 1, bind at 1.
      cbn [emit fs log]. rewrite Hsys. reflexivity. }
  destruct (decode_text sys_bytes) as [sys_text|e] eqn:Hsys'.
  2:{ apply (Hfail e [Cli.argv_at argv 2]).
      unfold run, Cli.main. rewrite H4'.
      unfold bind at 1, lift at 1. rewrite Hn.
      unfold bind at 1, read_text at 1, bind at 1, read_bytes at 1, bind at 1.
      cbn [emit fs log]. rewrite Hsys. unfold lift at 1. rewrite Hsys'. reflexivity. }
  destruct (dict_get (Cli.argv_at argv 3) (fs w)) as [prompt_bytes|] eqn:Hprompt.
  2:{ apply (Hfail (FileNotFoundError (Cli.argv_at argv 3))
               [Cli.argv_at argv 2; Cli.argv_at argv 3]).
      unfold run, Cli.main. rewrite H4'.
      unfold bind at 1, lift at 1. rewrite Hn.
      unfold bind at 1, read_text at 1, bind at 1, read_bytes at 1, bind at 1.
      cbn [emit fs log]. rewrite Hsys. unfold lift at 1. rewrite Hsys'.
      unfold bind at 1, read_text at 1, bind at 1, read_bytes at 1, bind at 1.
      cbn [emit fs log]. rewrite Hprompt. unfold opened, log. cbn [fs ticks trace map].
      now rewrite <- app_assoc. }
  destruct (decode_text prompt_bytes) as [prompt_text|e] eqn:Hprompt'.
  2:{ apply (Hfail e [Cli.argv_at argv 2; Cli.argv_at argv 3]).
      unfold run, Cli.main. rewrite H4'.
      unfold bind at 1, lift at 1. rewrite Hn.
      unfold bind at 1, read_text at 1, bind at 1, read_bytes at 1, bind at 1.
      cbn [emit fs log]. rewrite Hsys. unfold lift at 1. rewrite Hsys'.
      unfold bind at 1, read_text at 1, bind at 1, read_bytes at 1, bind at 1.
      cbn [emit fs log]. rewrite Hprompt. unfold lift at 1. rewrite Hprompt'.
      unfold opened, log. cbn [fs ticks trace map]. now rewrite <- app_assoc. }
  (* the attachment *)
  set (w3 := log (EvOpenRead (Cli.argv_at argv 3)) (log (EvOpenRead (Cli.argv_at argv 2)) w)).
  assert (Hstart :
             run (Cli.main argv) w
             = (inline_data <- Cli.read_inline_data argv ;;
                key_text <- read_text "api.key" ;;
                main_tail (main_args n sys_text prompt_text inline_data (strip key_text)))
                 w3).
  { unfold run, Cli.main. rewrite H4'.
    unfold bind at 1, lift at 1. rewrite Hn.
    unfold bind at 1, read_text at 1, bind at 1, read_bytes at 1, bind at 1.
    cbn [emit fs log]. rewrite Hsys. unfold lift at 1. rewrite Hsys'.
    unfold bind at 1, read_text at 1, bind at 1, read_bytes at 1, bind at 1.
    cbn [emit fs log]. rewrite Hprompt. unfold lift at 1. rewrite Hprompt'.
    reflexivity. }
  assert (Hw3 : w3 = opened [Cli.argv_at argv 2; Cli.argv_at argv 3] w).
  { unfold w3, opened, log. cbn [fs ticks trace map]. now rewrite <- app_assoc. }
  assert (Hkeystep : forall (inline : pyval) (paths : list string),
             run (key_text <- read_text "api.key" ;;
                  main_tail (main_args n sys_text prompt_text inline (strip key_text)))
                 (opened paths w)
             = match dict_get "api.key" (fs w) with
               | None => (Raise (FileNotFoundError "api.key"),
                          opened (paths ++ ["api.key"]) w)
               | Some key_bytes =>
                   match decode_text key_bytes with
                   | Raise e => (Raise e, opened (paths ++ ["api.key"]) w)
                   | Ok key_text =>
                       run (main_tail (main_args n sys_text prompt_text inline
                                         (strip key_text)))
                           (opened (paths ++ ["api.key"]) w)
                   end
               end).
  { intros inline paths. unfold run.
    unfold bind at 1, read_text at 1, bind at 1, read_bytes at 1, bind at 1.
    cbn [emit]. rewrite log_open_opened. cbn [fs opened].
    destruct (dict_get "api.key" (fs w)) as [key_bytes|]; [|reflexivity].
    unfold lift at 1. destruct (decode_text key_bytes); reflexivity. }
  destruct (5 <=? List.length argv)%nat eqn:H5.
  - (* a fourth argument *)
    destruct (dict_get (Cli.argv_at argv 4) (fs w)) as [content|] eqn:Hbin.
    2:{ apply (Hfail (FileNotFoundError (Cli.argv_at argv 4))
                 [Cli.argv_at argv 2; Cli.argv_at argv 3; Cli.argv_at argv 4]).
        rewrite Hstart. unfold bind at 1, Cli.read_inline_data. rewrite H5.
        unfold bind at 1, read_bytes at 1, bind at 1. cbn [emit].
        rewrite Hw3, log_open_opened. cbn [fs opened]. rewrite Hbin. reflexivity. }
    assert (Hstep : run (Cli.main argv) w
                    = run (key_text <- read_text "api.key" ;;
                           main_tail (main_args n sys_text prompt_text
                                        (attachment (Cli.argv_at argv 4) content)
                                        (strip key_text)))
                          (opened [Cli.argv_at argv 2; Cli.argv_at argv 3;
                                   Cli.argv_at argv 4] w)).
    { rewrite Hstart. unfold run, bind at 1, Cli.read_inline_data. rewrite H5.
      unfold bind at 1, read_bytes at 1, bind at 1. cbn [emit].
      rewrite Hw3, log_open_opened. cbn [fs opened]. rewrite Hbin. reflexivity. }
    rewrite Hkeystep in Hstep.
    destruct (dict_get "api.key" (fs w)) as [key_bytes|] eqn:Hkey;
      [|now apply (Hfail _ _ Hstep)].
    destruct (decode_text key_bytes) as [key_text|e] eqn:Hkey';
      [|now apply (Hfail _ _ Hstep)].
    right. split.
    + unfold inputs_readable. repeat split; eauto.
    + eexists _, n, _. split; [|exact Hstep]. reflexivity.
  - (* no fourth argument *)
    assert (Hstep : run (Cli.main argv) w
                    = run (key_text <- read_text "api.key" ;;
                           main_tail (main_args n sys_text prompt_text PNone
                                        (strip key_text)))
                          (opened [Cli.argv_at argv 2; Cli.argv_at argv 3] w)).
    { rewrite Hstart. unfold run, bind at 1, Cli.read_inline_data. rewrite H5.
      unfold ret at 1. now rewrite Hw3. }
    rewrite Hkeystep in Hstep.
    destruct (dict_get "api.key" (fs w)) as [key_bytes|] eqn:Hkey;
      [|now apply (Hfail _ _ Hstep)].
    destruct (decode_text key_bytes) as [key_text|e] eqn:Hkey';
      [|now apply (Hfail _ _ Hstep)].
    right. split.
    + unfold inputs_readable. repeat split; eauto.
      intros H. apply Nat.leb_gt in H5. lia.
    + eexists _, n, _. split; [|exact Hstep]. reflexivity.
Qed.

Lemma printed_responses_app t1 t2 :
  printed_responses (t1 ++ t2) = printed_responses t1 ++ printed_responses t2.
Proof. apply flat_map_app. Qed.

Lemma printed_responses_wr_events {P : Platform} (recs : list written) :
  printed_responses (flat_map wr_events recs) = [].
Proof.
  induction recs as [|r recs IH]; [reflexivity|].
  change (flat_map wr_events (r :: recs)) with (wr_events r ++ flat_map wr_events recs).
  rewrite printed_responses_app, IH. reflexivity.
Qed.

Lemma posts_opened (paths : list string) (w : World) :
  posts (trace (opened paths w)) = posts (trace w).
Proof.
  unfold opened. cbn [trace]. rewrite posts_app.
  induction paths as [|p paths IH]; cbn; [apply app_nil_r | exact IH].
Qed.

Lemma writes_opened (paths : list string) (w : World) :
  writes (trace (opened paths w)) = writes (trace w).
Proof.
  unfold opened. cbn [trace]. rewrite writes_app.
  induction paths as [|p paths IH]; cbn; [apply app_nil_r | exact IH].
Qed.

Lemma printed_responses_opened (paths : list string) (w : World) :
  printed_responses (trace (opened paths w)) = printed_responses (trace w).
Proof.
  unfold opened. cbn [trace]. rewrite printed_responses_app.
  induction paths as [|p paths IH]; cbn; [apply app_nil_r | exact IH].
Qed.

(** The call leaves the files and the clock alone, writes nothing and
    prints no response. *)
Lemma cli_call_quiet {P : Platform} (a : Cli.Args) (n : Z) (w : World) :
  Cli.gemini_max_tokens a = Some n ->
  let w' := snd (run (Cli.call_gemini_api a) w) in
  fs w' = fs w
  /\ writes (trace w') = writes (trace w)
  /\ printed_responses (trace w') = printed_responses (trace w).
Proof.
  intros Hn. cbv zeta. rewrite (cli_call_run a n w Hn).
  destruct (http_post (cli_request a n)) as [r|e];
    [destruct (raise_for_status r) as [[]|e]|];
    cbn [snd log fs trace]; rewrite ?writes_app, ?printed_responses_app; cbn;
    rewrite ?app_nil_r; auto.
Qed.

(** What [main] does once the inputs are read, in the three ways it can
    end: the call fails, the scan fails, or the response is printed. *)
Lemma main_tail_cases {P : Platform} (a : Cli.Args) (n : Z) (w : World) :
  Cli.gemini_max_tokens a = Some n ->
  let w1 := snd (run (Cli.call_gemini_api a) w) in
  (exists e, run (Cli.call_gemini_api a) w = (Raise e, w1)
             /\ run (main_tail a) w = (Raise e, w1))
  \/ (exists result, run (Cli.call_gemini_api a) w = (Ok result, w1)
        /\ let w2 := snd (run (Cli.extract_artifacts result) w1) in
           (exists e, run (main_tail a) w = (Raise e, w2))
           \/ run (main_tail a) w = (Ok tt, log (EvPrintJson result) w2)).
Proof.
  intros Hn w1. subst w1. unfold run, main_tail, bind.
  destruct (Cli.call_gemini_api a w) as [[result|e] w1]; cbn [snd].
  - right. exists result. split; [reflexivity|]. cbv zeta.
    destruct (Cli.extract_artifacts result w1) as [[[]|e] w2]; cbn [snd].
    + right. reflexivity.
    + left. now exists e.
  - left. now exists e.
Qed.

(** ** Requests, files and output of a run *)

(** X8.  The script sends a request exactly when all its inputs can be
    read, and then exactly one: when the token count does not parse, or
    one of the files named on the command line or [api.key] is missing
    or does not decode, or fewer than three arguments are given, the
    run sends nothing, writes nothing and leaves the files as they
    were. *)
Theorem X8_request_only_after_inputs (P : Platform) (argv : list string) (w : World) :
  let w' := snd (run (Cli.main argv) w) in
  (inputs_readable argv w -> exists req, posts (trace w') = posts (trace w) ++ [req])
  /\ (~ inputs_readable argv w ->
      posts (trace w') = posts (trace w)
      /\ writes (trace w') = writes (trace w)
      /\ fs w' = fs w).
Proof.
  intros w'. subst w'. split.
  - intros (H4 & [n Hn] & (sb & st & Hs & Hs') & (pb & pt & Hp & Hp') & Hbin
            & (kb & kt & Hk & Hk')).
    assert (Hcontent : exists content,
               (5 <= List.length argv)%nat ->
               dict_get (Cli.argv_at argv 4) (fs w) = Some content).
    { destruct (le_lt_dec 5 (List.length argv)) as [H5|H5].
      - destruct (Hbin H5) as [content Hc]. now exists content.
      - exists []. intros H. lia. }
    destruct Hcontent as [content Hcontent].
    rewrite (main_reaches_call argv w n sb pb content kb st pt kt) by assumption.
    eexists. rewrite (main_tail_posts _ n) by reflexivity.
    destruct (main_after_reads_opened argv w) as [paths ->].
    now rewrite posts_opened.
  - intros Hnot.
    destruct (main_cases argv w) as [[_ E]|[(e & paths & E)|[H _]]];
      [| |contradiction]; rewrite E; cbn [snd].
    + cbn [log trace fs]. rewrite posts_app, writes_app. cbn.
      now rewrite !app_nil_r.
    + rewrite posts_opened, writes_opened. auto.
Qed.

Lemma X8_request_only_after_inputs_witness :
  ~ inputs_readable (P := mock_platform (Ok rate_limited))
      ["generateResponse.py"; "256"; "system.txt"; "nowhere.txt"] sample_world
  /\ posts (trace (snd (run (Cli.main (platform := mock_platform (Ok rate_limited))
                              ["generateResponse.py"; "256"; "system.txt"; "nowhere.txt"])
                         sample_world)))
     = posts (trace sample_world).
Proof.
  assert (H : ~ inputs_readable (P := mock_platform (Ok rate_limited))
                ["generateResponse.py"; "256"; "system.txt"; "nowhere.txt"] sample_world).
  { intros (_ & _ & _ & (c & t & Hc & _) & _). discriminate Hc. }
  split; [exact H|].
  exact (proj1 (proj2 (X8_request_only_after_inputs (mock_platform (Ok rate_limited))
                         ["generateResponse.py"; "256"; "system.txt"; "nowhere.txt"]
                         sample_world) H)).
Defined.

(** X9.  When the run ends without error it has sent one request, the
    transport has answered it, and the parsed body of that answer, which
    is what the call returned, is printed once, as the last thing the
    script does; a run that ends in an error, be it before the call, in
    the call or in the scan of the response, prints no response at
    all. *)
Theorem X9_response_printed_on_success (P : Platform) (argv : list string) (w : World) :
  let w' := snd (run (Cli.main argv) w) in
  (fst (run (Cli.main argv) w) = Ok tt ->
   exists req r result earlier,
     posts (trace w') = posts (trace w) ++ [req]
     /\ http_post req = Ok r
     /\ json r = Ok result
     /\ (exists a n paths,
            req = cli_request a n
            /\ fst (run (Cli.call_gemini_api a) (opened paths w)) = Ok result)
     /\ trace w' = earlier ++ [EvPrintJson result]
     /\ printed_responses (trace w') = printed_responses (trace w) ++ [result])
  /\ (forall e, fst (run (Cli.main argv) w) = Raise e ->
                printed_responses (trace w') = printed_responses (trace w)).
Proof.
  intros w'. subst w'.
  destruct (main_cases argv w) as [[_ E]|[(e & paths & E)|[_ (a & n & paths & Hn & E)]]].
  - rewrite E; cbn [fst snd]. split; [discriminate|]. intros _ _. cbn [log trace].
    rewrite printed_responses_app. cbn. apply app_nil_r.
  - rewrite E; cbn [fst snd]. split; [discriminate|]. intros _ _.
    apply printed_responses_opened.
  - pose proof (cli_call_quiet a n (opened paths w) Hn) as (_ & _ & Hq).
    rewrite printed_responses_opened in Hq.
    pose proof (main_tail_posts a n (opened paths w) Hn) as Hposts.
    rewrite posts_opened, <- E in Hposts.
    pose proof (cli_call_run a n (opened paths w) Hn) as Hrun.
    destruct (main_tail_cases a n (opened paths w) Hn)
      as [(e & _ & Ht)|(result & Hcall & [[e Ht]|Ht])];
      rewrite E, Ht; cbn [fst snd].
    + split; [discriminate|]. intros _ _. exact Hq.
    + split; [discriminate|]. intros _ _.
      destruct (extract_artifacts_wrote result
                  (snd (run (Cli.call_gemini_api a) (opened paths w))))
        as (recs & (_ & T & _) & _ & _).
      rewrite T, printed_responses_app, printed_responses_wr_events, app_nil_r.
      exact Hq.
    + split; [|discriminate]. intros _.
      assert (Hanswer : exists r, http_post (cli_request a n) = Ok r
                                  /\ json r = Ok result).
      { rewrite Hrun in Hcall.
        destruct (http_post (cli_request a n)) as [r|e]; [|discriminate].
        exists r. split; [reflexivity|].
        destruct (raise_for_status r) as [[]|e]; [|discriminate].
        now injection Hcall as ->. }
      destruct Hanswer as (r & Hpost & Hjson).
      exists (cli_request a n), r, result. eexists.
      rewrite E, Ht in Hposts. cbn [snd] in Hposts.
      split; [exact Hposts|]. split; [exact Hpost|]. split; [exact Hjson|].
      split; [exists a, n, paths; split; [reflexivity | now rewrite Hcall]|].
      cbn [log trace]. split; [reflexivity|].
      destruct (extract_artifacts_wrote result
                  (snd (run (Cli.call_gemini_api a) (opened paths w))))
        as (recs & (_ & T & _) & _ & _).
      rewrite printed_responses_app, T, printed_responses_app,
        printed_responses_wr_events, app_nil_r, Hq. reflexivity.
Qed.

Lemma X9_response_printed_on_success_witness :
  (fst (run (Cli.main (platform := mock_platform (Ok text_answer)) sample_argv)
          sample_world) = Ok tt
   /\ exists req r result earlier,
        posts (trace (snd (run (Cli.main (platform := mock_platform (Ok text_answer))
                                  sample_argv) sample_world)))
        = posts (trace sample_world) ++ [req]
        /\ http_post (Platform := mock_platform (Ok text_answer)) req = Ok r
        /\ json r = Ok result
        /\ (exists a n paths,
               req = cli_request a n
               /\ fst (run (Cli.call_gemini_api (platform := mock_platform (Ok text_answer)) a)
                         (opened paths sample_world)) = Ok result)
        /\ trace (snd (run (Cli.main (platform := mock_platform (Ok text_answer))
                              sample_argv) sample_world))
           = earlier ++ [EvPrintJson result]
        /\ printed_responses
             (trace (snd (run (Cli.main (platform := mock_platform (Ok text_answer))
                                 sample_argv) sample_world)))
           = printed_responses (trace sample_world) ++ [result])
  /\ (fst (run (Cli.main (platform := mock_platform (Ok rate_limited)) sample_argv)
             sample_world) = Raise (HTTPError 429)
      /\ printed_responses
           (trace (snd (run (Cli.main (platform := mock_platform (Ok rate_limited))
                               sample_argv) sample_world)))
         = printed_responses (trace sample_world)).
Proof.
  split.
  - split; [reflexivity|].
    exact (proj1 (X9_response_printed_on_success (mock_platform (Ok text_answer))
                    sample_argv sample_world) eq_refl).
  - split; [reflexivity|].
    exact (proj2 (X9_response_printed_on_success (mock_platform (Ok rate_limited))
                    sample_argv sample_world) (HTTPError 429) eq_refl).
Defined.



(** ** Arguments beyond the fourth *)

(** X11.  The script looks at its first four arguments only: with a
    fourth argument present, any further arguments change nothing in
    what the run does. *)
Theorem X11_further_arguments_ignored
        (P : Platform) (argv extra : list string) (w : World) :
  (5 <= List.length argv)%nat ->
  run (Cli.main (argv ++ extra)) w = run (Cli.main argv) w.
Proof.
  intros H5.
  assert (Hat : forall k, (k < 5)%nat -> Cli.argv_at (argv ++ extra) k = Cli.argv_at argv k).
  { intros k Hk. unfold Cli.argv_at. apply app_nth1. lia. }
  assert (L4 : (List.length (argv ++ extra) <? 4)%nat = (List.length argv <? 4)%nat).
  { rewrite length_app.
    transitivity false; [apply Nat.ltb_ge; lia | symmetry; apply Nat.ltb_ge; lia]. }
  assert (L5 : (5 <=? List.length (argv ++ extra))%nat = (5 <=? List.length argv)%nat).
  { rewrite length_app.
    transitivity true; [apply Nat.leb_le; lia | symmetry; apply Nat.leb_le; lia]. }
  unfold run, Cli.main, Cli.read_inline_data.
  rewrite L4, L5, !Hat by lia. reflexivity.
Qed.

Lemma X11_further_arguments_ignored_witness :
  (5 <= List.length sample_argv)%nat
  /\ run (Cli.main (platform := mock_platform (Ok rate_limited))
            (sample_argv ++ ["more"; "and more"])) sample_world
     = run (Cli.main (platform := mock_platform (Ok rate_limited)) sample_argv)
         sample_world.
Proof.
  split; [cbn; lia|].
  apply (X11_further_arguments_ignored (mock_platform (Ok rate_limited)) sample_argv
           ["more"; "and more"] sample_world).
  cbn; lia.
Defined.

(** ** Responses without binary parts *)

Lemma for_parts_no_inline {P : Platform} (i : nat) (parts : list pyval) :
  forallb no_inline_part parts = true ->
  forall (p : nat) (w : World),
    run (for_enumerate (Cli.extract_part i) p parts) w = (Ok tt, w).
Proof.
  induction parts as [|x rest IH]; intros H p w; [reflexivity|].
  cbn [forallb] in H. apply andb_prop in H. destruct H as [Hx Hrest].
  unfold run in *. cbn [for_enumerate]. unfold bind.
  destruct x as [| | | | | |pd]; try discriminate. cbn [no_inline_part] in Hx.
  apply negb_true_iff in Hx.
  assert (E : Cli.extract_part i p (PDict pd) w = (Ok tt, w)).
  { unfold Cli.extract_part, bind, lift. cbn [py_contains]. now rewrite Hx. }
  rewrite E. now apply IH.
Qed.

Lemma extract_candidate_no_inline {P : Platform} (i : nat) (candidate : pyval)
      (w : World) :
  no_inline_candidate candidate = true ->
  run (Cli.extract_candidate i candidate) w = (Ok tt, w).
Proof.
  intros H. destruct candidate as [| | | | | |cd]; try discriminate.
  cbn [no_inline_candidate] in H.
  destruct (dict_get "content" cd) as [content|] eqn:Hc;
    [|now apply extract_candidate_no_content].
  destruct content as [| | | | | |ct]; try discriminate.
  destruct (dict_get "parts" ct) as [parts|] eqn:Hp;
    [|now apply (extract_candidate_no_parts i cd ct)].
  destruct parts as [| | | | |ps|]; try discriminate.
  unfold run, Cli.extract_candidate, bind, lift, ret.
  cbn [py_contains py_getitem].
  rewrite (dict_has_of_get _ _ _ Hc), Hc. cbn [py_contains py_getitem].
  rewrite (dict_has_of_get _ _ _ Hp), Hp. cbn [py_iter].
  exact (for_parts_no_inline i ps H 0 w).
Qed.

Lemma for_candidates_no_inline {P : Platform} (candidates : list pyval) :
  forallb no_inline_candidate candidates = true ->
  forall (i : nat) (w : World),
    run (for_enumerate Cli.extract_candidate i candidates) w = (Ok tt, w).
Proof.
  induction candidates as [|x rest IH]; intros H i w; [reflexivity|].
  cbn [forallb] in H. apply andb_prop in H. destruct H as [Hx Hrest].
  unfold run in *. cbn [for_enumerate]. unfold bind.
  pose proof (extract_candidate_no_inline i x w Hx) as E. unfold run in E.
  rewrite E. now apply IH.
Qed.

Lemma extract_artifacts_no_inline {P : Platform} (response : pyval) (w : World) :
  no_inline_response response = true ->
  run (Cli.extract_artifacts response) w = (Ok tt, w).
Proof.
  intros H. destruct response as [| | | | | |rd]; try discriminate.
  cbn [no_inline_response] in H.
  destruct (dict_get "candidates" rd) as [candidates|] eqn:Hc;
    [|now apply extract_artifacts_no_candidates].
  destruct candidates as [| | | | |cs|]; try discriminate.
  unfold run, Cli.extract_artifacts, bind, lift, ret.
  cbn [py_contains py_getitem].
  rewrite (dict_has_of_get _ _ _ Hc), Hc. cbn [py_iter].
  exact (for_candidates_no_inline cs H 0 w).
Qed.

(** X12.  When the answer has a status that is not an error status and
    its body parses to a response in which no part carries inline data
    (keys the scan looks for may be missing altogether), a run whose
    inputs are read ends without error having sent the one request and
    printed the response, and nothing else after the reads: no file is
    written, no line announced, the clock is not read. *)
Theorem X12_text_answer_is_only_printed
        (P : Platform) (argv : list string) (w : World) (n : Z)
        (sys_bytes prompt_bytes content key_bytes : list byte)
        (sys_text prompt_text key_text : string) (r : Response) (response : pyval) :
  (4 <= List.length argv)%nat ->
  parse_int (Cli.argv_at argv 1) = Ok n ->
  dict_get (Cli.argv_at argv 2) (fs w) = Some sys_bytes ->
  decode_text sys_bytes = Ok sys_text ->
  dict_get (Cli.argv_at argv 3) (fs w) = Some prompt_bytes ->
  decode_text prompt_bytes = Ok prompt_text ->
  ((5 <= List.length argv)%nat ->
   dict_get (Cli.argv_at argv 4) (fs w) = Some content) ->
  dict_get "api.key" (fs w) = Some key_bytes ->
  decode_text key_bytes = Ok key_text ->
  let a := main_args n sys_text prompt_text
             (main_inline_data argv content) (strip key_text) in
  http_post (cli_request a n) = Ok r ->
  ~ (400 <= status_code r < 600)%Z ->
  json r = Ok response ->
  no_inline_response response = true ->
  run (Cli.main argv) w
  = (Ok tt,
     log (EvPrintJson response)
       (log (EvPost (cli_request a n)) (main_after_reads argv w))).
Proof.
  intros Hlen Hn Hsys Hsys' Hprompt Hprompt' Hbin Hkey Hkey' a Hpost Hstatus Hjson Hno.
  rewrite (main_reaches_call argv w n sys_bytes prompt_bytes content key_bytes
             sys_text prompt_text key_text) by assumption.
  fold a. unfold run, main_tail, bind.
  pose proof (cli_call_run a n (main_after_reads argv w) eq_refl) as Hcall.
  rewrite Hpost, (raise_for_status_pass r Hstatus), Hjson in Hcall.
  unfold run in Hcall. rewrite Hcall.
  pose proof (extract_artifacts_no_inline response
                (log (EvPost (cli_request a n)) (main_after_reads argv w)) Hno) as E.
  unfold run in E. rewrite E. reflexivity.
Qed.

Lemma X12_text_answer_is_only_printed_witness :
  no_inline_response (text_response "A cat on a mat.") = true
  /\ run (Cli.main (platform := mock_platform
                                  (Ok (response_of 200 "" (Ok (text_response "A cat on a mat.")))))
            sample_argv) sample_world
     = (Ok tt,
        {| fs := sample_files;
           ticks := 0;
           trace :=
             [ EvOpenRead "system.txt"; EvOpenRead "prompt.txt"; EvOpenRead "image.png";
               EvOpenRead "api.key";
               EvPost (cli_request
                         (main_args 256 "Be brief" "Describe the image"
                            (PDict [("mime_type", PStr "image/png"); ("data", PStr "TWFu")])
                            "secret") 256);
               EvPrintJson (text_response "A cat on a mat.") ] |}).
Proof.
  split; [reflexivity|].
  apply (X12_text_answer_is_only_printed
           (mock_platform (Ok (response_of 200 "" (Ok (text_response "A cat on a mat.")))))
           sample_argv sample_world 256%Z
           (list_byte_of_string "Be brief") (list_byte_of_string "Describe the image")
           ["M"%byte; "a"%byte; "n"%byte] (list_byte_of_string " secret ")
           "Be brief" "Describe the image" " secret "
           (response_of 200 "" (Ok (text_response "A cat on a mat.")))
           (text_response "A cat on a mat."));
    solve [reflexivity | cbn; lia].
Defined.

(** ** What the script encodes, the scan decodes *)

(** X13.  The inline data the script builds for an attachment is read
    back by the scan to the very bytes of the attachment: a part that
    carries it is written to a file holding exactly those bytes, under
    the extension of the MIME type the script chose. *)
Theorem X13_attachment_echo
        (P : Platform) (binary_file : string) (content : list byte)
        (idx part_idx : nat) (w : World) :
  run (Cli.extract_part idx part_idx
         (PDict [("inline_data", attachment binary_file content)])) w
  = (Ok tt,
     after_write
       (Cli.output_filename (strftime_now (ticks w)) idx part_idx
          (Cli.or_bin (guess_extension (Cli.mime_type_of binary_file))))
       content w).
Proof.
  apply (extract_part_inline idx part_idx
           [("inline_data", attachment binary_file content)]
           [("mime_type", PStr (Cli.mime_type_of binary_file));
            ("data", PStr (b64encode content))]
           (Cli.mime_type_of binary_file) (PStr (b64encode content)));
    try reflexivity.
  apply b64decode_b64encode.
Qed.

(** ** The example run of the plain variant *)

(** X14.  The example run sends one request, built from the fixed
    prompt with 1024 output tokens and temperature 0.7 and with the key
    untrimmed at the end of the URL.  When the run ends without error,
    the transport has answered that request and what is printed, once
    and last, is the parsed body of the answer, which is what the call
    returned; when the call fails, the run ends with that error having
    printed nothing. *)
Theorem X14_plain_example_run (P : Platform) (API_KEY : string) (w : World) :
  let req := plain_request (plain_example_args API_KEY) in
  let w' := snd (run (Plain.main API_KEY) w) in
  req_url req
  = ("https://generativelanguage.googleapis.com/v1beta/models/gemini-3-pro-preview:generateContent?key="
     ++ API_KEY)%string
  /\ py_getitem (req_payload req) "generationConfig"
     = Ok (generation_config 1024 0.7%float 0.95%float 40 1)
  /\ posts (trace w') = posts (trace w) ++ [req]
  /\ (forall e, fst (run (Plain.main API_KEY) w) = Raise e ->
                fst (run (Plain.call_gemini_api (plain_example_args API_KEY)) w) = Raise e
                /\ w' = log (EvPost req) w)
  /\ (fst (run (Plain.main API_KEY) w) = Ok tt ->
      exists r result,
        http_post req = Ok r
        /\ json r = Ok result
        /\ run (Plain.call_gemini_api (plain_example_args API_KEY)) w
           = (Ok result, log (EvPost req) w)
        /\ w' = log (EvPrintJson result) (log (EvPost req) w)).
Proof.
  intros req w'. subst req w'.
  split; [reflexivity|]. split; [reflexivity|].
  unfold run, Plain.main, bind.
  fold (plain_example_args API_KEY).
  pose proof (plain_call_run (plain_example_args API_KEY) w) as Hcall.
  pose proof (plain_call_posts_once (plain_example_args API_KEY) w) as Hposts.
  unfold run in Hcall, Hposts.
  destruct (Plain.call_gemini_api (plain_example_args API_KEY) w) as [[result|e] w1] eqn:E;
    cbn [fst snd] in *.
  - assert (Hw1 : w1 = log (EvPost (plain_request (plain_example_args API_KEY))) w).
    { destruct (http_post (plain_request (plain_example_args API_KEY))) as [r|e'];
        [destruct (raise_for_status r) as [[]|e']|]; now injection Hcall. }
    split; [|split; [discriminate|]].
    + cbn [emit snd log trace]. rewrite posts_app, Hposts. cbn. apply app_nil_r.
    + intros _.
      destruct (http_post (plain_request (plain_example_args API_KEY))) as [r|e'];
        [|discriminate].
      destruct (raise_for_status r) as [[]|e']; [|discriminate].
      exists r, result. split; [reflexivity|].
      split; [now injection Hcall|].
      split; [now rewrite Hw1|]. cbn [emit snd]. now rewrite Hw1.
  - assert (Hw1 : w1 = log (EvPost (plain_request (plain_example_args API_KEY))) w).
    { destruct (http_post (plain_request (plain_example_args API_KEY))) as [r|e'];
        [destruct (raise_for_status r) as [[]|e']|]; now injection Hcall. }
    split; [exact Hposts|]. split; [|discriminate].
    intros e0 He0. injection He0 as <-. split; [reflexivity | exact Hw1].
Qed.

Lemma X14_plain_example_run_witness :
  (fst (run (Plain.main (platform := mock_platform (Ok text_answer)) "key  ") empty_world)
   = Ok tt
   /\ exists r result,
        http_post (Platform := mock_platform (Ok text_answer))
          (plain_request (plain_example_args "key  ")) = Ok r
        /\ json r = Ok result
        /\ run (Plain.call_gemini_api (platform := mock_platform (Ok text_answer))
                  (plain_example_args "key  ")) empty_world
           = (Ok result, log (EvPost (plain_request (plain_example_args "key  "))) empty_world)
        /\ snd (run (Plain.main (platform := mock_platform (Ok text_answer)) "key  ")
                  empty_world)
           = log (EvPrintJson result)
               (log (EvPost (plain_request (plain_example_args "key  "))) empty_world))
  /\ (fst (run (Plain.main (platform := mock_platform (Ok rate_limited)) "key  ")
             empty_world) = Raise (HTTPError 429)
      /\ snd (run (Plain.main (platform := mock_platform (Ok rate_limited)) "key  ")
                empty_world)
         = log (EvPost (plain_request (plain_example_args "key  "))) empty_world).
Proof.
  split.
  - split; [reflexivity|].
    exact (proj2 (proj2 (proj2 (proj2
             (X14_plain_example_run (mock_platform (Ok text_answer)) "key  " empty_world))))
             eq_refl).
  - split; [reflexivity|].
    exact (proj2 (proj1 (proj2 (proj2 (proj2
             (X14_plain_example_run (mock_platform (Ok rate_limited)) "key  " empty_world))))
             (HTTPError 429) eq_refl)).
Defined.

(** ** Inline data that counts as none *)

(** X15.  An inline-data argument that is supplied but false in a
    condition (the empty mapping, for one) is left out like one that is
    not supplied: the request is the same, with the text part alone. *)
Theorem X15_falsy_inline_data_omitted (a : Cli.Args) (n : Z) :
  truthy (Cli.gemini_inline_data a) = false ->
  cli_request a n = cli_request (cli_with_inline_data PNone a) n
  /\ payload_parts (req_payload (cli_request a n))
     = Ok (PList [PDict [("text", PStr (Cli.gemini_user_prompt a))]]).
Proof.
  intros H. split.
  - unfold cli_request. f_equal. f_equal.
    unfold Cli.payload_of, Cli.parts_of. rewrite H. reflexivity.
  - cbn [req_payload cli_request]. rewrite cli_payload_parts, cli_parts_shape.
    now rewrite H.
Qed.

Lemma X15_falsy_inline_data_omitted_witness :
  truthy (Cli.gemini_inline_data (cli_with_inline_data (PDict []) sample_cli_args)) = false
  /\ cli_request (cli_with_inline_data (PDict []) sample_cli_args) 256
     = cli_request
         (cli_with_inline_data PNone (cli_with_inline_data (PDict []) sample_cli_args)) 256.
Proof.
  split; [reflexivity|].
  exact (proj1 (X15_falsy_inline_data_omitted
                  (cli_with_inline_data (PDict []) sample_cli_args) 256%Z eq_refl)).
Defined.

(** ** Responses the scan gets through *)

Lemma scanned_zero (w : World) : scanned 0 w (Ok tt, w).
Proof. unfold scanned. cbn. repeat split; lia. Qed.

Lemma scanned_bind (k1 k2 : nat) (m : M unit) (k : M unit) (w : World) :
  scanned k1 w (m w) ->
  (forall w1, scanned k2 w1 (k w1)) ->
  scanned (k1 + k2) w (bind m (fun _ => k) w).
Proof.
  intros (R1 & W1 & T1) Hk. unfold bind.
  destruct (m w) as [[[]|e] w1]; cbn [fst snd] in *; [|discriminate].
  destruct (Hk w1) as (R2 & W2 & T2). unfold scanned. repeat split; [exact R2|lia|lia].
Qed.

Lemma extract_part_sound {P : Platform} (i p : nat) (part : pyval) (w : World) :
  sound_part part = true ->
  scanned (inline_in_part part) w (run (Cli.extract_part i p part) w).
Proof.
  intros H. destruct part as [| | | | | |pd]; try discriminate.
  cbn [sound_part inline_in_part] in *.
  destruct (dict_get "inline_data" pd) as [inline|] eqn:Hin.
  - rewrite (dict_has_of_get _ _ _ Hin).
    destruct inline as [| | | | | |ind]; try discriminate.
    apply andb_prop in H. destruct H as [Hmime Hdata].
    destruct (dict_get "data" ind) as [data|] eqn:Hd; [|discriminate].
    destruct (b64decode data) as [content|e] eqn:Hdec; [|discriminate].
    assert (Hget : exists mime,
               py_get (PDict ind) "mime_type" (PStr "application/octet-stream")
               = Ok (PStr mime)).
    { cbn [py_get]. destruct (dict_get "mime_type" ind) as [[| | | |m| |]|];
        try discriminate; eexists; reflexivity. }
    destruct Hget as [mime Hget].
    rewrite (extract_part_inline i p pd ind mime data content w Hin Hget Hd Hdec).
    unfold scanned, after_write. cbn [fst snd trace ticks].
    rewrite writes_app. cbn. rewrite length_app. cbn. repeat split; lia.
  - rewrite (dict_has_of_none _ _ Hin), (extract_part_no_inline i p pd w Hin).
    apply scanned_zero.
Qed.

Lemma for_parts_sound {P : Platform} (i : nat) (parts : list pyval) :
  forallb sound_part parts = true ->
  forall (p : nat) (w : World),
    scanned (list_sum (map inline_in_part parts)) w
      (run (for_enumerate (Cli.extract_part i) p parts) w).
Proof.
  induction parts as [|x rest IH]; intros H p w; [apply scanned_zero|].
  cbn [forallb] in H. apply andb_prop in H. destruct H as [Hx Hrest].
  cbn [map list_sum fold_right for_enumerate]. unfold run.
  apply scanned_bind.
  - exact (extract_part_sound i p x w Hx).
  - intros w1. exact (IH Hrest (S p) w1).
Qed.

Lemma extract_candidate_sound {P : Platform} (i : nat) (candidate : pyval) (w : World) :
  sound_candidate candidate = true ->
  scanned (inline_in_candidate candidate) w (run (Cli.extract_candidate i candidate) w).
Proof.
  intros H. destruct candidate as [| | | | | |cd]; try discriminate.
  cbn [sound_candidate inline_in_candidate] in *.
  destruct (dict_get "content" cd) as [content|] eqn:Hc.
  2:{ rewrite (extract_candidate_no_content i cd w Hc). apply scanned_zero. }
  destruct content as [| | | | | |ct]; try discriminate.
  destruct (dict_get "parts" ct) as [parts|] eqn:Hp.
  2:{ rewrite (extract_candidate_no_parts i cd ct w Hc Hp). apply scanned_zero. }
  destruct parts as [| | | | |ps|]; try discriminate.
  unfold run, Cli.extract_candidate, bind, lift, ret.
  cbn [py_contains py_getitem].
  rewrite (dict_has_of_get _ _ _ Hc), Hc. cbn [py_contains py_getitem].
  rewrite (dict_has_of_get _ _ _ Hp), Hp. cbn [py_iter].
  exact (for_parts_sound i ps H 0 w).
Qed.

Lemma for_candidates_sound {P : Platform} (candidates : list pyval) :
  forallb sound_candidate candidates = true ->
  forall (i : nat) (w : World),
    scanned (list_sum (map inline_in_candidate candidates)) w
      (run (for_enumerate Cli.extract_candidate i candidates) w).
Proof.
  induction candidates as [|x rest IH]; intros H i w; [apply scanned_zero|].
  cbn [forallb] in H. apply andb_prop in H. destruct H as [Hx Hrest].
  cbn [map list_sum fold_right for_enumerate]. unfold run.
  apply scanned_bind.
  - exact (extract_candidate_sound i x w Hx).
  - intros w1. exact (IH Hrest (S i) w1).
Qed.

(** X16.  A response in which every part is a mapping, and every inline
    data a mapping whose [data] decodes from base64 and whose
    [mime_type], if there is one, is a string, is scanned to the end
    without error, however many candidates and parts it has: one file
    is written for each part that carries inline data, and the clock is
    read once for each. *)
Theorem X16_sound_response_is_scanned (P : Platform) (response : pyval) (w : World) :
  sound_response response = true ->
  fst (run (Cli.extract_artifacts response) w) = Ok tt
  /\ List.length (writes (trace (snd (run (Cli.extract_artifacts response) w))))
     = (List.length (writes (trace w)) + inline_in_response response)%nat
  /\ ticks (snd (run (Cli.extract_artifacts response) w))
     = (ticks w + inline_in_response response)%nat.
Proof.
  intros H. change (scanned (inline_in_response response) w
                      (run (Cli.extract_artifacts response) w)).
  destruct response as [| | | | | |rd]; try discriminate.
  cbn [sound_response inline_in_response] in *.
  destruct (dict_get "candidates" rd) as [candidates|] eqn:Hc.
  2:{ rewrite (extract_artifacts_no_candidates rd w Hc). apply scanned_zero. }
  destruct candidates as [| | | | |cs|]; try discriminate.
  unfold run, Cli.extract_artifacts, bind, lift, ret.
  cbn [py_contains py_getitem].
  rewrite (dict_has_of_get _ _ _ Hc), Hc. cbn [py_iter].
  exact (for_candidates_sound cs H 0 w).
Qed.

Lemma X16_sound_response_is_scanned_witness :
  sound_response (PDict (two_png_response "TWFu" "TQ==")) = true
  /\ fst (run (Cli.extract_artifacts (platform := mock_platform (Ok rate_limited))
                 (PDict (two_png_response "TWFu" "TQ=="))) empty_world) = Ok tt.
Proof.
  split; [reflexivity|].
  exact (proj1 (X16_sound_response_is_scanned (mock_platform (Ok rate_limited))
                  (PDict (two_png_response "TWFu" "TQ==")) empty_world eq_refl)).
Defined.
